(** * A shallow embedding of [nova_poshta_api.py]

    The client is a set of request builders and response normalisers over one
    JSON endpoint.  The embedding follows the Python source function by
    function:

    - Python values that travel in JSON bodies and property maps are the
      inductive [value]; a [dict] is an association list in insertion order,
      read with [get] and written with [set] (replace in place, else append),
      as a Python [dict] is;
    - an expression that can raise returns a [result]; code that talks to the
      network runs in the monad [M], which threads the list of requests issued
      so far and asks the remote side ([server]) for the outcome of each POST;
    - the dataclasses are records, the [str, Enum] classes are enumerations
      with their [value] function;
    - [str] is [string], one [ascii] per code point of U+0000..U+00FF, with
      [str.lower] and [str.strip] written out for that range;
    - the declared weights and amounts ([float]) are binary64 numbers
      ([PrimFloat.float]); [str] of a float, [strftime] and [int] of a [str]
      are functions of the Python runtime and are parameters of the model. *)

From Stdlib Require Import ZArith List String Ascii Bool Lia.
From Stdlib Require Import PrimFloat SpecFloat FloatOps FloatAxioms.
From Stdlib Require Import DecimalString.
Import ListNotations.

Set Warnings "-register-all".

Local Open Scope Z_scope.
Local Open Scope string_scope.
Local Open Scope list_scope.

(* ================================================================== *)
(** ** Strings *)

Module Str.

(** [str.isspace] on one code point below U+0100: TAB..CR, FS..US, SPACE,
    NEL and NBSP. *)
Definition is_space (c : ascii) : bool :=
  let n := nat_of_ascii c in
  ((9 <=? n) && (n <=? 13) || (28 <=? n) && (n <=? 32)
   || (n =? 133) || (n =? 160))%nat.

(** [str.lower] on one code point below U+0100: A..Z and the Latin-1
    capitals U+00C0..U+00DE (without the multiplication sign U+00D7) move
    up by 32, every other code point is its own lower case. *)
Definition lower_char (c : ascii) : ascii :=
  let n := nat_of_ascii c in
  if ((65 <=? n) && (n <=? 90)
      || (192 <=? n) && (n <=? 222) && negb (n =? 215))%nat
  then ascii_of_nat (n + 32) else c.

(** [s.lower()] *)
Fixpoint lower (s : string) : string :=
  match s with
  | EmptyString => EmptyString
  | String c r => String (lower_char c) (lower r)
  end.

(** [s.lstrip()] *)
Fixpoint lstrip (s : string) : string :=
  match s with
  | EmptyString => EmptyString
  | String c r => if is_space c then lstrip r else s
  end.

(** [s.rstrip()] *)
Fixpoint rstrip (s : string) : string :=
  match s with
  | EmptyString => EmptyString
  | String c r =>
      match rstrip r with
      | EmptyString => if is_space c then EmptyString else String c EmptyString
      | r' => String c r'
      end
  end.

(** [s.strip()] *)
Definition strip (s : string) : string := rstrip (lstrip s).

(** [s.startswith(p)] *)
Fixpoint startswith (p s : string) : bool :=
  match p, s with
  | EmptyString, _ => true
  | String a p', String b s' => Ascii.eqb a b && startswith p' s'
  | String _ _, EmptyString => false
  end.

(** [sub in s] *)
Fixpoint contains (sub s : string) : bool :=
  startswith sub s
  || match s with
     | EmptyString => false
     | String _ r => contains sub r
     end.

(** [sep.join(l)] for a list of [str] *)
Fixpoint join (sep : string) (l : list string) : string :=
  match l with
  | [] => EmptyString
  | [x] => x
  | x :: r => x ++ sep ++ join sep r
  end.

(** [str(n)] for an [int] *)
Definition of_Z (n : Z) : string := NilEmpty.string_of_int (Z.to_int n).

(** The one-character string holding a double quote. *)
Definition dquote : string := String (ascii_of_nat 34) EmptyString.


End Str.

(* ================================================================== *)
(** ** Python values, dictionaries and exceptions *)

Module Py.

(** The values found in JSON bodies and property maps.  JSON numbers are
    integers here: a body holding a fractional number is outside the model. *)
Inductive value : Type :=
| VNone
| VBool (b : bool)
| VInt (n : Z)
| VStr (s : string)
| VList (l : list value)
| VDict (d : list (string * value)).

(** A [dict] with [str] keys, in insertion order. *)
Definition dict : Type := list (string * value).

(** [bool(v)] *)
Definition truthy (v : value) : bool :=
  match v with
  | VNone => false
  | VBool b => b
  | VInt n => negb (Z.eqb n 0)
  | VStr s => negb (String.eqb s "")
  | VList l => match l with [] => false | _ :: _ => true end
  | VDict d => match d with [] => false | _ :: _ => true end
  end.

(** [a or b] *)
Definition or_ (a b : value) : value := if truthy a then a else b.

(** The binding of [k], if any. *)
Fixpoint lookup (d : dict) (k : string) : option value :=
  match d with
  | [] => None
  | (k', v) :: r => if String.eqb k' k then Some v else lookup r k
  end.

(** [d.get(k, dflt)] *)
Definition get_or (d : dict) (k : string) (dflt : value) : value :=
  match lookup d k with
  | Some v => v
  | None => dflt
  end.

(** [d.get(k)] *)
Definition get (d : dict) (k : string) : value := get_or d k VNone.

(** [k in d] *)
Definition has_key (d : dict) (k : string) : bool :=
  match lookup d k with
  | Some _ => true
  | None => false
  end.

(** [d[k] = v]: an existing key keeps its place, a new one goes last. *)
Fixpoint set (d : dict) (k : string) (v : value) : dict :=
  match d with
  | [] => [(k, v)]
  | (k', v') :: r =>
      if String.eqb k' k then (k, v) :: r else (k', v') :: set r k v
  end.

(** [{**d, **extra}] *)
Definition update (d extra : dict) : dict :=
  fold_left (fun acc kv => set acc (fst kv) (snd kv)) extra d.

(** The exceptions the modelled code can let through.  [OutsideModel] is not
    a Python exception: it marks an input the embedding does not cover. *)
Inductive exn : Type :=
| AttributeError
| TypeError
| KeyError
| IndexError
| ValueError
| Uncaught (name : string)
| OutsideModel.

(** The outcome of evaluating an expression: a value, or an exception on its
    way to the caller. *)
Inductive result (A : Type) : Type :=
| Ok (a : A)
| Raise (e : exn).
Arguments Ok {A} a.
Arguments Raise {A} e.

Definition rbind {A B : Type} (r : result A) (k : A -> result B) : result B :=
  match r with
  | Ok a => k a
  | Raise e => Raise e
  end.

(** [[f(x) for x in l]], stopping at the first exception. *)
Fixpoint map_result {A B : Type} (f : A -> result B) (l : list A) : result (list B) :=
  match l with
  | [] => Ok []
  | x :: r =>
      rbind (f x) (fun y => rbind (map_result f r) (fun ys => Ok (y :: ys)))
  end.

(** [v.get(k)] on any value: only a [dict] has the method. *)
Definition attr_get (v : value) (k : string) : result value :=
  match v with
  | VDict d => Ok (get d k)
  | _ => Raise AttributeError
  end.

(** [v.get(k, dflt)] on any value. *)
Definition attr_get_or (v : value) (k : string) (dflt : value) : result value :=
  match v with
  | VDict d => Ok (get_or d k dflt)
  | _ => Raise AttributeError
  end.

(** [d[k]] on a dict. *)
Definition getitem (d : dict) (k : string) : result value :=
  match lookup d k with
  | Some v => Ok v
  | None => Raise KeyError
  end.

(** [v[k]] with a [str] key on any value. *)
Definition subscript (v : value) (k : string) : result value :=
  match v with
  | VDict d => getitem d k
  | _ => Raise TypeError
  end.

(** The one-character strings of [s], as iterating over a [str] gives them. *)
Fixpoint chars (s : string) : list value :=
  match s with
  | EmptyString => []
  | String c r => VStr (String c EmptyString) :: chars r
  end.

(** [v[0]] on any value. *)
Definition first (v : value) : result value :=
  match v with
  | VList (x :: _) => Ok x
  | VList [] => Raise IndexError
  | VStr (String c _) => Ok (VStr (String c EmptyString))
  | VStr EmptyString => Raise IndexError
  | VDict _ => Raise KeyError
  | _ => Raise TypeError
  end.

(** The items [for x in v] runs over. *)
Definition iter (v : value) : result (list value) :=
  match v with
  | VList l => Ok l
  | VStr s => Ok (chars s)
  | VDict d => Ok (map (fun kv => VStr (fst kv)) d)
  | _ => Raise TypeError
  end.

(** [len(v)] *)
Definition len (v : value) : result Z :=
  match v with
  | VList l => Ok (Z.of_nat (List.length l))
  | VStr s => Ok (Z.of_nat (String.length s))
  | VDict d => Ok (Z.of_nat (List.length d))
  | _ => Raise TypeError
  end.

(** The receiver of a [str] method such as [.lower()] or [.strip()]. *)
Definition str_method (v : value) : result string :=
  match v with
  | VStr s => Ok s
  | _ => Raise AttributeError
  end.

(** The operand of integer arithmetic or of an order comparison with an
    [int]: [bool] is a subclass of [int]. *)
Definition number (v : value) : result Z :=
  match v with
  | VInt n => Ok n
  | VBool b => Ok (if b then 1 else 0)
  | _ => Raise TypeError
  end.

(** [sep.join(v)]: every item must be a [str]. *)
Definition join (sep : string) (v : value) : result string :=
  rbind (iter v) (fun items =>
  rbind (map_result (fun x => match x with
                              | VStr s => Ok s
                              | _ => Raise TypeError
                              end) items) (fun strs =>
  Ok (Str.join sep strs))).

End Py.

Import Py.

Declare Scope py_scope.
Delimit Scope py_scope with py.
Notation "'let*' x ':=' c 'in' k" := (rbind c (fun x => k))
  (at level 61, x pattern, c at next level, right associativity) : py_scope.
Local Open Scope py_scope.

(* ================================================================== *)
(** ** Enumerations and dataclasses *)

Module PersonProperty.
Inductive t : Type := SENDER | RECIPIENT.
Definition value (x : t) : string :=
  match x with
  | SENDER => "Sender"
  | RECIPIENT => "Recipient"
  end.
End PersonProperty.

Module CargoType.
Inductive t : Type := CARGO | PARCEL | MONEY.
Definition value (x : t) : string :=
  match x with
  | CARGO => "Cargo"
  | PARCEL => "Parcel"
  | MONEY => "Money"
  end.
End CargoType.

Module ServiceType.
Inductive t : Type := WAREHOUSE_WAREHOUSE.
Definition value (x : t) : string :=
  match x with
  | WAREHOUSE_WAREHOUSE => "WarehouseWarehouse"
  end.
End ServiceType.

Module PaymentMethod.
Inductive t : Type := CASH | NON_CASH.
Definition value (x : t) : string :=
  match x with
  | CASH => "Cash"
  | NON_CASH => "NonCash"
  end.
End PaymentMethod.

Module WarehouseType.
Inductive t : Type := POST_MACHINE.
Definition value (x : t) : string :=
  match x with
  | POST_MACHINE => "Postomat"
  end.
End WarehouseType.

(** [http.HTTPStatus.OK] and [NOT_FOUND], which compare and serialise as
    their numbers. *)
Module Status.
Definition OK : Z := 200.
Definition NOT_FOUND : Z := 404.
End Status.

Module NovaPoshtaSender.
Record t : Type := Build {
  city_identifier : string;
  agent_identifier : string;
  address_identifier : string;
  agent_contact_identifier : string;
  phone : string;
  address : string;
  department_number : Z;
  max_weight_allowed : float
}.
End NovaPoshtaSender.

Module DeliveryReceiver.
Record t : Type := Build { phone : string }.
End DeliveryReceiver.

Module NovaPoshtaReceiver.
Record t : Type := Build {
  city_identifier : string;
  agent_identifier : string;
  address_identifier : string;
  agent_contact_identifier : string;
  address : string;
  department_number : Z;
  max_weight_allowed : float;
  delivery_receiver : DeliveryReceiver.t
}.
End NovaPoshtaReceiver.

(** The calendar date of a [datetime]; the client reads nothing else of it. *)
Record datetime : Type := { year : Z; month : Z; day : Z }.

Module DeliveryInfo.
Record t : Type := Build {
  ttn : string;
  estimate_order_price : float;
  payer : string;
  comment : string
}.
(** [DeliveryInfo.get_payment_method_display] *)
Definition get_payment_method_display (self : t) : string :=
  PaymentMethod.value PaymentMethod.NON_CASH.
End DeliveryInfo.

Module NovaPoshta.
Record t : Type := Build {
  sender : NovaPoshtaSender.t;
  receiver : NovaPoshtaReceiver.t;
  specified_weight : float;
  with_backward_delivery : bool;
  backward_amount : float;
  postpaid_amount : float;
  delivery_identifier : string;
  delivery_date : datetime;
  delivery : DeliveryInfo.t
}.
End NovaPoshta.

(* ================================================================== *)
(** ** The transport and the world around the client *)

(** The JSON envelope of one POST to [BASE_URL]. *)
Record request : Type := {
  apiKey : string;
  modelName : string;
  calledMethod : string;
  methodProperties : dict
}.

(** [requests.HTTPError]: the status code of the response it carries, when it
    carries one with that attribute, and [str(e)]. *)
Record HTTPError : Type := {
  response_status_code : option Z;
  http_error_text : string
}.

(** What the [try] block of [_post] ends with: [body] is bound, or
    [raise_for_status] raised [requests.HTTPError], or another
    [requests.RequestException] was raised (no response: connection error,
    timeout, ...), or some other exception was. *)
Inductive outcome : Type :=
| Body (body : value)
| RaisesHTTPError (e : HTTPError)
| RaisesRequestException (text : string)
| RaisesOther (e : exn).

(** The requests issued so far, oldest first. *)
Definition trace : Type := list request.

(** What the client does not define: the remote side, which answers a request
    knowing the ones before it, and four functions of the Python runtime. *)
Class World : Type := {
  (** the outcome of POSTing [r] after the requests of [t] *)
  server : trace -> request -> outcome;
  (** [str(x)] for a [float] *)
  str_float : float -> string;
  (** [d.strftime("%d.%m.%Y")] *)
  strftime_dmY : datetime -> string;
  (** [int(s)] for a [str]: [None] when it raises [ValueError] *)
  int_str : string -> option Z;
  (** the text of a [PersonProperty] inside an f-string: the member's
      value or its qualified name, depending on the version of Python *)
  format_property : PersonProperty.t -> string
}.

(** Code that issues requests: it reads and extends the trace, and returns a
    value or lets an exception through. *)
Definition M (A : Type) : Type := trace -> result A * trace.

Definition ret {A : Type} (a : A) : M A := fun t => (Ok a, t).

Definition bind {A B : Type} (m : M A) (k : A -> M B) : M B :=
  fun t =>
    match m t with
    | (Ok a, t') => k a t'
    | (Raise e, t') => (Raise e, t')
    end.

Definition lift {A : Type} (r : result A) : M A := fun t => (r, t).

Notation "x <- c ;; k" := (bind c (fun x => k))
  (at level 61, c at next level, right associativity) : py_scope.

(** [NovaPoshtaAPI]: the fields set by [__init__]. *)
Record NovaPoshtaAPI : Type := { api_key : string; timeout : Z }.

(* ================================================================== *)
(** ** [NovaPoshtaAPI] *)

Section API.

Context {W : World}.

Definition failure (code : Z) (text : string) : dict :=
  [("status", VBool false); ("status_code", VInt code); ("error", VStr text)].

(** Lines 118-124 of [_post]: the reply's own [success] flag decides. *)
Definition classify_body (body : value) : result dict :=
  let* success := attr_get_or body "success" (VBool false) in
  if negb (truthy success) then
    let* errors := attr_get body "errors" in
    let* from_errors := Py.join "; " (or_ errors (VList [])) in
    let* msg :=
      if negb (String.eqb from_errors "") then Ok from_errors
      else
        let* codes := attr_get body "messageCodes" in
        let* from_codes := Py.join "; " (or_ codes (VList [])) in
        Ok (if negb (String.eqb from_codes "") then from_codes else "API error") in
    let code :=
      if Str.contains "API key" msg && Str.contains "invalid" (Str.lower msg)
      then 401 else 400 in
    Ok (failure code msg ++ [("raw", body)])
  else
    let* fields := match body with
                   | VDict d => Ok d
                   | _ => Raise TypeError
                   end in
    Ok (update [("status", VBool true); ("status_code", VInt Status.OK)] fields).

(** The [payload] of [_post]; [props or {}] is the map given, or an empty one. *)
Definition envelope (self : NovaPoshtaAPI) (model method : string)
    (props : option dict) : request :=
  {| apiKey := api_key self;
     modelName := model;
     calledMethod := method;
     methodProperties := match props with
                         | Some p => p
                         | None => []
                         end |}.

(** [_post] *)
Definition _post (self : NovaPoshtaAPI) (model method : string)
    (props : option dict) : M dict :=
  fun t =>
    let payload := envelope self model method props in
    let t' := t ++ [payload] in
    match server t payload with
    | RaisesHTTPError e =>
        (Ok (failure (match response_status_code e with
                      | Some c => c
                      | None => 400
                      end) (http_error_text e)), t')
    | RaisesRequestException text => (Ok (failure 400 text), t')
    | RaisesOther e => (Raise e, t')
    | Body body => (classify_body body, t')
    end.

(** [_list_ok] *)
Definition _list_ok (resp : dict) (not_found_msg : string) : dict :=
  if negb (truthy (get resp "status")) then resp
  else
    let data := or_ (get resp "data") (VList []) in
    if negb (truthy data)
    then failure Status.NOT_FOUND not_found_msg
    else [("status", VBool true); ("data", data);
          ("info", get_or resp "info" (VDict []))].

(** [_map_city] *)
Definition _map_city (c : value) : result value :=
  let* ref := attr_get c "Ref" in
  let* description := attr_get c "Description" in
  let* area := attr_get c "AreaDescription" in
  let* settlement := attr_get c "SettlementTypeDescription" in
  Ok (VDict [("city_ref", ref); ("city", description); ("area", area);
             ("settlement_type", settlement)]).

(** [int(v)] *)
Definition int (v : value) : result Z :=
  match v with
  | VInt n => Ok n
  | VBool b => Ok (if b then 1 else 0)
  | VStr s => match int_str s with
              | Some n => Ok n
              | None => Raise ValueError
              end
  | _ => Raise TypeError
  end.

(** [_map_wh] *)
Definition _map_wh (w : value) : result value :=
  let* place_raw := attr_get w "PlaceMaxWeightAllowed" in
  let* place := int (or_ place_raw (VInt 0)) in
  let* total_raw := attr_get w "TotalMaxWeightAllowed" in
  let* total := int (or_ total_raw (VInt 0)) in
  let* number_raw := attr_get w "Number" in
  let* number := int (or_ number_raw (VInt 0)) in
  let* ref := attr_get w "Ref" in
  let* description := attr_get w "Description" in
  let* index := attr_get w "WarehouseIndex" in
  let* city_ref := attr_get w "CityRef" in
  let* city := attr_get w "CityDescription" in
  Ok (VDict [("number", VInt number);
             ("address_ref", ref);
             ("address", description);
             ("index", index);
             ("city_ref", city_ref);
             ("city", city);
             ("max_weight_allowed", VInt (if Z.eqb total 0 then place else total));
             ("max_weight_allowed_place", VInt place);
             ("max_weight_allowed_total", VInt total)]).

(** The ceiling of [a / b] for [b > 0]. *)
Definition ceil_div (a b : Z) : Z := - ((- a) / b).

(** [_ceil].  [total / size] is the binary64 number nearest to the quotient,
    and [math.ceil] of it is the ceiling of the quotient itself as long as
    both operands are below [2^53] in absolute value; beyond that the float
    can differ from the quotient by more than the distance to the next
    integer, and the model gives no answer. *)
Definition _ceil (total : value) (size : Z) : result Z :=
  let size := Z.max 1 (if Z.eqb size 0 then 1 else size) in
  let* n := number total in
  if (Z.abs n <? 2 ^ 53)%Z && (size <? 2 ^ 53)%Z
  then Ok (ceil_div n size)
  else Raise OutsideModel.

(** The generator of [find_city_by_name] under [next(..., None)]: the first
    item whose description is the query in lower case, else [None]. *)
Fixpoint exact_match (city : string) (data : list value) : result value :=
  match data with
  | [] => Ok VNone
  | x :: r =>
      let* description := attr_get x "Description" in
      let* s := str_method (or_ description (VStr "")) in
      if String.eqb (Str.lower s) (Str.lower city)
      then Ok x
      else exact_match city r
  end.

Definition city_not_found (city : string) : string :=
  "City named " ++ Str.dquote ++ city ++ Str.dquote ++ " is not found".

(** The receiver of [.get] in [chk.get("info", {}).get(...)]: the attribute is
    looked up before the arguments of the call are evaluated. *)
Definition info_of (chk : dict) : result dict :=
  match get_or chk "info" (VDict []) with
  | VDict d => Ok d
  | _ => Raise AttributeError
  end.

(** [find_city_by_name] *)
Definition find_city_by_name (self : NovaPoshtaAPI) (city : string)
    (limit page : Z) : M dict :=
  res <- _post self "Address" "getCities"
           (Some [("FindByString", VStr city); ("Limit", VInt limit);
                  ("Page", VInt page)]) ;;
  let chk := _list_ok res (city_not_found city) in
  if negb (truthy (get chk "status")) then ret chk
  else lift (
    let* data := getitem chk "data" in
    let* items := iter data in
    let* exact := exact_match city items in
    let* cities :=
      if truthy exact
      then (let* c := _map_city exact in Ok [c])
      else map_result _map_city items in
    let* total :=
      if truthy exact then Ok (VInt 1)
      else (let* info := info_of chk in
            Ok (or_ (get info "totalCount")
                    (VInt (Z.of_nat (List.length cities))))) in
    let* pages := _ceil total limit in
    Ok [("status", VBool true);
        ("status_code", VInt Status.OK);
        ("cities", VList cities);
        ("total", total);
        ("total_pages", VInt pages);
        ("total_in_page", VInt (Z.of_nat (List.length cities)));
        ("current_page", VInt page)]).

Definition warehouse_not_found (warehouse_number : option Z) (city : string) : string :=
  let label_city :=
    if negb (String.eqb city "")
    then (" in " ++ Str.dquote ++ city ++ Str.dquote)%string else "" in
  let label_wh :=
    match warehouse_number with
    | Some n => ("#" ++ Str.of_Z n)%string
    | None => ""
    end in
  ("Warehouse " ++ label_wh ++ " is not found" ++ label_city)%string.

(** The property map [find_warehouse_in_city] sends. *)
Definition warehouse_props (city_ref : option string) (warehouse_number : option Z)
    (warehouse_string : option string) (limit page : Z) : dict :=
  let props := [("Limit", VInt limit); ("Page", VInt page)] in
  let props := match city_ref with
               | Some r => if negb (String.eqb r "")
                           then set props "CityRef" (VStr r) else props
               | None => props
               end in
  let props := match warehouse_number with
               | Some n => set props "WarehouseId" (VInt n)
               | None => props
               end in
  match warehouse_string with
  | Some w => if negb (String.eqb w "")
              then set props "FindByString" (VStr w) else props
  | None => props
  end.

(** [find_warehouse_in_city] *)
Definition find_warehouse_in_city (self : NovaPoshtaAPI) (city_ref : option string)
    (warehouse_number : option Z) (warehouse_string : option string)
    (city : string) (limit page : Z) : M dict :=
  res <- _post self "AddressGeneral" "getWarehouses"
           (Some (warehouse_props city_ref warehouse_number warehouse_string
                    limit page)) ;;
  let chk := _list_ok res (warehouse_not_found warehouse_number city) in
  if negb (truthy (get chk "status")) then ret chk
  else lift (
    let* data := getitem chk "data" in
    let* info := info_of chk in
    let* n := len data in
    let total := get_or info "totalCount" (VInt n) in
    let* t := number total in
    if (t <=? 1)%Z && truthy data then
      let* d0 := first data in
      let* wh := _map_wh d0 in
      Ok [("status", VBool true);
          ("status_code", VInt Status.OK);
          ("warehouses", wh);
          ("total", total);
          ("total_pages", VInt 1);
          ("total_in_page", VInt 1);
          ("current_page", VInt 1)]
    else
      let* items := iter data in
      let* warehouses := map_result _map_wh items in
      let* pages := _ceil total limit in
      Ok [("status", VBool true);
          ("status_code", VInt Status.OK);
          ("warehouses", VList warehouses);
          ("total", total);
          ("total_pages", VInt pages);
          ("total_in_page", VInt (Z.of_nat (List.length warehouses)));
          ("current_page", VInt page)]).

Definition agents_not_found (property : PersonProperty.t) : string :=
  "Agents by " ++ Str.dquote ++ format_property property ++ Str.dquote
  ++ " property is not found".

(** [find_agents_by_property] *)
Definition find_agents_by_property (self : NovaPoshtaAPI)
    (property : PersonProperty.t) (page : Z) : M dict :=
  res <- _post self "Counterparty" "getCounterparties"
           (Some [("CounterpartyProperty", VStr (PersonProperty.value property));
                  ("Page", VInt page)]) ;;
  let chk := _list_ok res (agents_not_found property) in
  if negb (truthy (get chk "status")) then ret chk
  else lift (
    let* data := getitem chk "data" in
    let* info := info_of chk in
    let* n := len data in
    Ok [("status", VBool true);
        ("status_code", VInt Status.OK);
        ("agents", data);
        ("total", get_or info "totalCount" (VInt n))]).

(** The record [get_sender_data] appends for the counterparty [s] and the
    reply [contacts] of its contact-person call. *)
Definition sender_record (s : value) (contacts : dict) : result value :=
  let* c0 := first (or_ (get contacts "data") (VList [VDict []])) in
  let* agent_ref := attr_get s "Ref" in
  let* agent_description := attr_get s "Description" in
  let* agent_type := attr_get s "CounterpartyType" in
  let* agent_edrpou := attr_get s "EDRPOU" in
  let* agent_city_ref := attr_get s "City" in
  let* agent_city := attr_get s "CityDescription" in
  let* contact_ref := attr_get c0 "Ref" in
  let* first_name := attr_get c0 "FirstName" in
  let* last_name := attr_get c0 "LastName" in
  let* middle_name := attr_get c0 "MiddleName" in
  let* phone := attr_get c0 "Phones" in
  let* email := attr_get c0 "Email" in
  Ok (VDict [("agent_ref", agent_ref);
             ("agent_description", agent_description);
             ("agent_type", agent_type);
             ("agent_edrpou", agent_edrpou);
             ("agent_city_ref", agent_city_ref);
             ("agent_city", agent_city);
             ("contact_ref", contact_ref);
             ("first_name", first_name);
             ("last_name", last_name);
             ("middle_name", middle_name);
             ("phone", phone);
             ("email", email)]).

(** The [for] loop of [get_sender_data] over the counterparties still to
    visit, with the records appended so far: [inl] is the early
    [return contacts], [inr] the list [out] when the loop ends. *)
Fixpoint sender_loop (self : NovaPoshtaAPI) (agents : list value)
    (out : list value) : M (dict + list value) :=
  match agents with
  | [] => ret (inr out)
  | s :: rest =>
      ref <- lift (subscript s "Ref") ;;
      contacts <- _post self "Counterparty" "getCounterpartyContactPersons"
                    (Some [("Ref", ref)]) ;;
      if negb (truthy (get contacts "status")) then ret (inl contacts)
      else
        record <- lift (sender_record s contacts) ;;
        sender_loop self rest (out ++ [record])
  end.

(** [get_sender_data] *)
Definition get_sender_data (self : NovaPoshtaAPI) : M dict :=
  senders <- find_agents_by_property self PersonProperty.SENDER 1 ;;
  if negb (truthy (get senders "status")) then ret senders
  else
    agents <- lift (iter (get_or senders "agents" (VList []))) ;;
    done <- sender_loop self agents [] ;;
    match done with
    | inl contacts => ret contacts
    | inr out =>
        ret [("status", VBool true);
             ("status_code", VInt Status.OK);
             ("senders", VList out);
             ("total", get_or senders "total" (VInt (Z.of_nat (List.length out))))]
    end.

(** A key of the index built by [find_sender_by_full_name]. *)
Definition name_key : Type := (string * string * string)%type.

Definition name_key_eqb (a b : name_key) : bool :=
  let '(a1, a2, a3) := a in
  let '(b1, b2, b3) := b in
  String.eqb a1 b1 && String.eqb a2 b2 && String.eqb a3 b3.

(** [s.strip().lower()] *)
Definition normalize (s : string) : string := Str.lower (Str.strip s).

(** [(d.get(field) or "").strip().lower()] *)
Definition stored_name (d : value) (field : string) : result string :=
  let* v := attr_get d field in
  let* s := str_method (or_ v (VStr "")) in
  Ok (normalize s).

(** The key under which the entry [d] goes into the index. *)
Definition entry_key (d : value) : result name_key :=
  let* f := stored_name d "first_name" in
  let* l := stored_name d "last_name" in
  let* m := stored_name d "middle_name" in
  Ok (f, l, m).

(** [idx[k] = d] for the index, a dict keyed by name triples. *)
Fixpoint idx_set (idx : list (name_key * value)) (k : name_key) (d : value)
  : list (name_key * value) :=
  match idx with
  | [] => [(k, d)]
  | (k', d') :: r =>
      if name_key_eqb k' k then (k, d) :: r else (k', d') :: idx_set r k d
  end.

(** [idx.get(k)] *)
Fixpoint idx_get (idx : list (name_key * value)) (k : name_key) : value :=
  match idx with
  | [] => VNone
  | (k', d) :: r => if name_key_eqb k' k then d else idx_get r k
  end.

(** The dict comprehension of [find_sender_by_full_name], entry by entry. *)
Fixpoint build_index (data : list value) (idx : list (name_key * value))
  : result (list (name_key * value)) :=
  match data with
  | [] => Ok idx
  | d :: r =>
      let* k := entry_key d in
      build_index r (idx_set idx k d)
  end.

(** [find_sender_by_full_name] *)
Definition find_sender_by_full_name (first_name last_name middle_name : string)
    (data : list value) : result value :=
  let* idx := build_index data [] in
  Ok (idx_get idx (normalize first_name, normalize last_name,
                   normalize middle_name)).

(** [set_additional_parameters] *)
Definition set_additional_parameters (sender : NovaPoshtaSender.t)
    (receiver : NovaPoshtaReceiver.t) (specified_weight : float)
    (cargo_type : CargoType.t) (backward_delivery : bool)
    (backward_amount : string) (payer_type : string) : dict :=
  let marker := WarehouseType.value WarehouseType.POST_MACHINE in
  let post_machine :=
    Str.contains marker (NovaPoshtaSender.address sender)
    || Str.contains marker (NovaPoshtaReceiver.address receiver) in
  let cargo_type := if post_machine then CargoType.PARCEL else cargo_type in
  let options_seat :=
    if post_machine
    then VList [VDict [("volumetricVolume", VStr "1");
                       ("volumetricWidth", VStr "40");
                       ("volumetricLength", VStr "40");
                       ("volumetricHeight", VStr "30");
                       ("weight", VStr (str_float specified_weight))]]
    else VNone in
  let backward_delivery_data :=
    if backward_delivery
    then VList [VDict [("PayerType", VStr payer_type);
                       ("CargoType", VStr (CargoType.value CargoType.MONEY));
                       ("RedeliveryString", VStr backward_amount)]]
    else VNone in
  [("options_seat", options_seat);
   ("cargo_type", VStr (CargoType.value cargo_type));
   ("backward_delivery_data", backward_delivery_data)].

(** The fallback description, as the bytes of its UTF-8 encoding. *)
Definition DEFAULT_DESCRIPTION : string := "Доставка у відділення".

(** [not x] for a [float]: zero of either sign is false, everything else,
    also a NaN, is true. *)
Definition float_is_zero (x : float) : bool := PrimFloat.eqb x PrimFloat.zero.

(** Lines 432-460 of [create_waybill]: the property map that is sent. *)
Definition create_waybill_props (sender : NovaPoshtaSender.t)
    (receiver : NovaPoshtaReceiver.t) (declared_price : string)
    (delivery_date : datetime) (specified_weight : float)
    (payment_method payer_type : string) (cargo_type : CargoType.t)
    (comment : string) (goods_count : Z) (with_backward_delivery : bool)
    (backward_amount postpaid_amount : float) : result dict :=
  let ap := set_additional_parameters sender receiver specified_weight cargo_type
              with_backward_delivery (str_float backward_amount) payer_type in
  let* ap_cargo_type := getitem ap "cargo_type" in
  let* ap_options_seat := getitem ap "options_seat" in
  let props :=
    [("PayerType", VStr payer_type);
     ("PaymentMethod", VStr payment_method);
     ("DateTime", VStr (strftime_dmY delivery_date));
     ("CargoType", ap_cargo_type);
     ("Weight", VStr (str_float specified_weight));
     ("ServiceType", VStr (ServiceType.value ServiceType.WAREHOUSE_WAREHOUSE));
     ("SeatsAmount", VInt goods_count);
     ("Description", VStr (if negb (String.eqb comment "") then comment
                           else DEFAULT_DESCRIPTION));
     ("Cost", VStr declared_price);
     ("CitySender", VStr (NovaPoshtaSender.city_identifier sender));
     ("Sender", VStr (NovaPoshtaSender.agent_identifier sender));
     ("SenderAddress", VStr (NovaPoshtaSender.address_identifier sender));
     ("ContactSender", VStr (NovaPoshtaSender.agent_contact_identifier sender));
     ("SendersPhone", VStr (NovaPoshtaSender.phone sender));
     ("RecipientsPhone",
      VStr (DeliveryReceiver.phone (NovaPoshtaReceiver.delivery_receiver receiver)));
     ("CityRecipient", VStr (NovaPoshtaReceiver.city_identifier receiver));
     ("Recipient", VStr (NovaPoshtaReceiver.agent_identifier receiver));
     ("RecipientAddress", VStr (NovaPoshtaReceiver.address_identifier receiver));
     ("ContactRecipient", VStr (NovaPoshtaReceiver.agent_contact_identifier receiver));
     ("OptionsSeat", ap_options_seat)] in
  if String.eqb payment_method (PaymentMethod.value PaymentMethod.CASH)
  then
    let* data := getitem ap "backward_delivery_data" in
    Ok (set props "BackwardDeliveryData" data)
  else Ok (set props "AfterpaymentOnGoodsCost" (VStr (str_float postpaid_amount))).

(** [create_waybill] *)
Definition create_waybill (self : NovaPoshtaAPI) (sender : NovaPoshtaSender.t)
    (receiver : NovaPoshtaReceiver.t) (declared_price : string)
    (delivery_date : datetime) (specified_weight : float)
    (payment_method payer_type : string) (cargo_type : CargoType.t)
    (comment : string) (goods_count : Z) (with_backward_delivery : bool)
    (backward_amount postpaid_amount : float) : M dict :=
  if float_is_zero (NovaPoshtaSender.max_weight_allowed sender)
     || float_is_zero (NovaPoshtaReceiver.max_weight_allowed receiver)
  then ret (failure 400 "Invalid max weight")
  else if PrimFloat.ltb (NovaPoshtaSender.max_weight_allowed sender) specified_weight
  then ret (failure 400 "Too much specified weight (sender)")
  else if PrimFloat.ltb (NovaPoshtaReceiver.max_weight_allowed receiver) specified_weight
  then ret (failure 400 "Too much specified weight (receiver)")
  else
    props <- lift (create_waybill_props sender receiver declared_price
                     delivery_date specified_weight payment_method payer_type
                     cargo_type comment goods_count with_backward_delivery
                     backward_amount postpaid_amount) ;;
    _post self "InternetDocument" "save" (Some props).

(** Lines 468-503 of [update_waybill]: the property map that is sent. *)
Definition update_waybill_props (nova_poshta : NovaPoshta.t) (goods_count : Z)
  : result dict :=
  let sender := NovaPoshta.sender nova_poshta in
  let receiver := NovaPoshta.receiver nova_poshta in
  let delivery := NovaPoshta.delivery nova_poshta in
  let ap := set_additional_parameters sender receiver
              (NovaPoshta.specified_weight nova_poshta) CargoType.CARGO
              (NovaPoshta.with_backward_delivery nova_poshta)
              (str_float (NovaPoshta.backward_amount nova_poshta))
              (DeliveryInfo.payer delivery) in
  let pm := DeliveryInfo.get_payment_method_display delivery in
  let* ap_cargo_type := getitem ap "cargo_type" in
  let props :=
    [("Ref", VStr (NovaPoshta.delivery_identifier nova_poshta));
     ("PayerType", VStr (DeliveryInfo.payer delivery));
     ("PaymentMethod", VStr pm);
     ("DateTime", VStr (strftime_dmY (NovaPoshta.delivery_date nova_poshta)));
     ("CargoType", ap_cargo_type);
     ("Weight", VStr (str_float (NovaPoshta.specified_weight nova_poshta)));
     ("ServiceType", VStr (ServiceType.value ServiceType.WAREHOUSE_WAREHOUSE));
     ("SeatsAmount", VInt goods_count);
     ("Description", VStr (if negb (String.eqb (DeliveryInfo.comment delivery) "")
                           then DeliveryInfo.comment delivery
                           else DEFAULT_DESCRIPTION));
     ("Cost", VStr (str_float (DeliveryInfo.estimate_order_price delivery)));
     ("CitySender", VStr (NovaPoshtaSender.city_identifier sender));
     ("Sender", VStr (NovaPoshtaSender.agent_identifier sender));
     ("SenderAddress", VStr (NovaPoshtaSender.address_identifier sender));
     ("ContactSender", VStr (NovaPoshtaSender.agent_contact_identifier sender));
     ("SendersPhone", VStr (NovaPoshtaSender.phone sender));
     ("RecipientsPhone",
      VStr (DeliveryReceiver.phone (NovaPoshtaReceiver.delivery_receiver receiver)));
     ("CityRecipient", VStr (NovaPoshtaReceiver.city_identifier receiver));
     ("Recipient", VStr (NovaPoshtaReceiver.agent_identifier receiver));
     ("RecipientAddress", VStr (NovaPoshtaReceiver.address_identifier receiver));
     ("ContactRecipient", VStr (NovaPoshtaReceiver.agent_contact_identifier receiver));
     ("VolumeGeneral", VNone)] in
  if String.eqb pm (PaymentMethod.value PaymentMethod.CASH)
  then
    let* data := getitem ap "backward_delivery_data" in
    Ok (set props "BackwardDeliveryData" data)
  else Ok (set props "AfterpaymentOnGoodsCost"
             (VStr (str_float (NovaPoshta.postpaid_amount nova_poshta)))).

(** [update_waybill] *)
Definition update_waybill (self : NovaPoshtaAPI) (nova_poshta : NovaPoshta.t)
    (goods_count : Z) : M dict :=
  props <- lift (update_waybill_props nova_poshta goods_count) ;;
  _post self "InternetDocument" "update" (Some props).

End API.

(* ================================================================== *)
(** ** [NovaPoshtaAPI]: the other operations *)

Module PersonType.
Inductive t : Type := PRIVATE | COMPANY.
Definition value (x : t) : string :=
  match x with
  | PRIVATE => "PrivatePerson"
  | COMPANY => "Organization"
  end.
End PersonType.

Section Operations.

Context {W : World}.





(** [v == n] for an [int] [n]: only a number can be equal to it. *)
Definition eq_int (v : value) (n : Z) : bool :=
  match v with
  | VInt m => Z.eqb m n
  | VBool b => Z.eqb (if b then 1 else 0) n
  | _ => false
  end.

(** [is_valid_key] *)
Definition is_valid_key (self : NovaPoshtaAPI) : M bool :=
  res <- _post self "ScanSheet" "getScanSheetList" None ;;
  ret (truthy (get res "status") && eq_int (get res "status_code") Status.OK).


(** [waybill_status] *)
Definition waybill_status (self : NovaPoshtaAPI) (nova_poshta : NovaPoshta.t)
  : M dict :=
  res <- _post self "TrackingDocument" "getStatusDocuments"
           (Some [("Documents",
                   VList [VDict [("DocumentNumber",
                                  VStr (DeliveryInfo.ttn
                                          (NovaPoshta.delivery nova_poshta)))]])]) ;;
  if negb (truthy (get res "status")) then ret res
  else lift (
    let* d := first (or_ (get res "data") (VList [VDict []])) in
    let status_code := get_or res "status_code" (VInt 200) in
    let* ref := attr_get d "RefEW" in
    let* ttn := attr_get d "Number" in
    let* code_raw := attr_get d "StatusCode" in
    let* code := int (or_ code_raw (VInt 0)) in
    let* description := attr_get d "Status" in
    let* scan := attr_get d "DateScan" in
    let* tracking := attr_get d "TrackingUpdateDate" in
    Ok [("status", VBool true);
        ("status_code", status_code);
        ("document", VDict [("ref", ref);
                            ("ttn", ttn);
                            ("status_code", VInt code);
                            ("status_description", description);
                            ("last_scan_date", scan);
                            ("last_tracking_date", tracking)])]).

End Operations.

(* ================================================================== *)
(** ** Documents *)

(** [base64.b64encode] on bytes, bit by bit: three bytes are four groups of
    six bits, each written as one character of the alphabet; a last group of
    one or two bytes is filled with zero bits and padded with [=]. *)
Module Base64.

Definition alphabet : string :=
  "ABCDEFGHIJKLMNOPQRSTUVWXYZabcdefghijklmnopqrstuvwxyz0123456789+/".

Definition pad : ascii := ascii_of_nat 61.

(** Six bits, the most significant first. *)
Definition sextet : Type := (bool * bool * bool * bool * bool * bool)%type.

Definition bit (b : bool) : nat := if b then 1%nat else 0%nat.

Definition index (s : sextet) : nat :=
  let '(b5, b4, b3, b2, b1, b0) := s in
  (32 * bit b5 + 16 * bit b4 + 8 * bit b3 + 4 * bit b2 + 2 * bit b1 + bit b0)%nat.

(** The character that stands for a group. *)
Definition digit (s : sextet) : ascii :=
  match String.get (index s) alphabet with
  | Some c => c
  | None => pad
  end.

(** The place of a character in a text, counted from [i]. *)
Fixpoint position (c : ascii) (s : string) (i : nat) : option nat :=
  match s with
  | EmptyString => None
  | String x r => if Ascii.eqb x c then Some i else position c r (S i)
  end.

(** The group a character of the alphabet stands for. *)
Definition undigit (c : ascii) : option sextet :=
  match position c alphabet 0 with
  | Some n => Some (Nat.testbit n 5, Nat.testbit n 4, Nat.testbit n 3,
                    Nat.testbit n 2, Nat.testbit n 1, Nat.testbit n 0)
  | None => None
  end.

(** [b64encode(bs)], as text. *)
Fixpoint encode (bs : list ascii) : string :=
  match bs with
  | [] => EmptyString
  | [Ascii a0 a1 a2 a3 a4 a5 a6 a7] =>
      String (digit (a7, a6, a5, a4, a3, a2))
        (String (digit (a1, a0, false, false, false, false))
           (String pad (String pad EmptyString)))
  | [Ascii a0 a1 a2 a3 a4 a5 a6 a7; Ascii b0 b1 b2 b3 b4 b5 b6 b7] =>
      String (digit (a7, a6, a5, a4, a3, a2))
        (String (digit (a1, a0, b7, b6, b5, b4))
           (String (digit (b3, b2, b1, b0, false, false))
              (String pad EmptyString)))
  | Ascii a0 a1 a2 a3 a4 a5 a6 a7 :: Ascii b0 b1 b2 b3 b4 b5 b6 b7
    :: Ascii c0 c1 c2 c3 c4 c5 c6 c7 :: rest =>
      String (digit (a7, a6, a5, a4, a3, a2))
        (String (digit (a1, a0, b7, b6, b5, b4))
           (String (digit (b3, b2, b1, b0, c7, c6))
              (String (digit (c5, c4, c3, c2, c1, c0)) (encode rest))))
  end.

(** The decoding of a padded base64 text, four characters at a time. *)
Fixpoint decode (s : string) : option (list ascii) :=
  match s with
  | EmptyString => Some []
  | String x1 (String x2 (String x3 (String x4 rest))) =>
      match undigit x1, undigit x2 with
      | Some (a7, a6, a5, a4, a3, a2), Some (a1, a0, b7, b6, b5, b4) =>
          let a := Ascii a0 a1 a2 a3 a4 a5 a6 a7 in
          if Ascii.eqb x3 pad then
            if Ascii.eqb x4 pad && String.eqb rest EmptyString
            then Some [a] else None
          else
            match undigit x3 with
            | Some (b3, b2, b1, b0, c7, c6) =>
                let b := Ascii b0 b1 b2 b3 b4 b5 b6 b7 in
                if Ascii.eqb x4 pad then
                  if String.eqb rest EmptyString then Some [a; b] else None
                else
                  match undigit x4, decode rest with
                  | Some (c5, c4, c3, c2, c1, c0), Some tail =>
                      Some (a :: b :: Ascii c0 c1 c2 c3 c4 c5 c6 c7 :: tail)
                  | _, _ => None
                  end
            | None => None
            end
      | _, _ => None
      end
  | _ => None
  end.

End Base64.

Definition quote_char : ascii := ascii_of_nat 34.

(** The rest of [s] after the prefix [p], when [s] starts with [p]. *)
Fixpoint strip_prefix (p s : string) : option string :=
  match p, s with
  | EmptyString, _ => Some s
  | String a p', String b s' =>
      if Ascii.eqb a b then strip_prefix p' s' else None
  | String _ _, EmptyString => None
  end.

(** The longest prefix of [s] without a double quote: what a greedy run of
    characters other than the quote takes. *)
Fixpoint until_quote (s : string) : string :=
  match s with
  | EmptyString => EmptyString
  | String c r =>
      if Ascii.eqb c quote_char then EmptyString
      else String c (until_quote r)
  end.

(** The pattern of [_fname] matched at the start of [s], and its group 1:
    [filename=], an optional double quote, one or more characters other than
    the quote (the group), an optional double quote.
    After [filename=] an opening quote is taken when there is one;
    the group is the run of characters up to the next quote or the end and
    must not be empty (giving the opening quote back cannot help: the group
    would have to start with it); the closing quote is optional. *)
Definition match_filename (s : string) : option string :=
  match strip_prefix "filename=" s with
  | None => None
  | Some rest =>
      let rest := match rest with
                  | String c r => if Ascii.eqb c quote_char then r else rest
                  | EmptyString => rest
                  end in
      match until_quote rest with
      | EmptyString => None
      | name => Some name
      end
  end.

(** [re.search] with that pattern: the match at the leftmost position that
    has one. *)
Fixpoint search_filename (s : string) : option string :=
  match match_filename s with
  | Some name => Some name
  | None =>
      match s with
      | EmptyString => None
      | String _ r => search_filename r
      end
  end.

(** [_fname]; [cd or ""] is [cd] itself for a [str]. *)
Definition _fname (cd fallback : string) : string :=
  match search_filename cd with
  | Some name => name
  | None => fallback
  end.

(** A response that passed [raise_for_status]: what [print_waybill_doc]
    reads of it.  [headers] holds one entry per header name. *)
Module Response.
Record t : Type := Build {
  status_code : Z;
  headers : list (string * string);
  content : list ascii
}.
End Response.

(** [r.headers.get(name)]: header names are compared in lower case. *)
Fixpoint header (hs : list (string * string)) (name : string) : option string :=
  match hs with
  | [] => None
  | (k, v) :: r =>
      if String.eqb (Str.lower k) (Str.lower name) then Some v
      else header r name
  end.

(** What the [try] block of [print_waybill_doc] gets from the GET: a
    response that passed [raise_for_status], or [requests.HTTPError], or
    another [requests.RequestException], or some other exception. *)
Inductive fetched : Type :=
| Fetched (r : Response.t)
| FetchHTTPError (e : HTTPError)
| FetchRequestException (text : string)
| FetchOther (e : exn).

(** The document host: what a GET of a URL ends with. *)
Class DocumentHost : Type := {
  fetch : string -> fetched
}.

Definition MY_NP_URL : string := "https://my.novaposhta.ua".

(** The [url] of [print_waybill_doc]. *)
Definition document_url (self : NovaPoshtaAPI) (waybill_ref : string) : string :=
  MY_NP_URL ++ "/orders/printDocument/orders[]/" ++ waybill_ref
  ++ "/type/pdf/apiKey/" ++ api_key self.

(** [print_waybill_doc] *)
Definition print_waybill_doc {H : DocumentHost} (self : NovaPoshtaAPI)
    (waybill_ref : string) : result dict :=
  match fetch (document_url self waybill_ref) with
  | Fetched r =>
      let fname :=
        _fname (match header (Response.headers r) "Content-Disposition" with
                | Some v => v
                | None => EmptyString
                end) (waybill_ref ++ ".pdf") in
      Ok [("success", VBool true);
          ("status", VInt (Response.status_code r));
          ("document",
           VDict [("filename", VStr fname);
                  ("base64", VStr (Base64.encode (Response.content r)));
                  ("type", match header (Response.headers r) "Content-Type" with
                           | Some v => VStr v
                           | None => VNone
                           end)])]
  | FetchHTTPError e =>
      Ok [("success", VBool false);
          ("status", VInt (match response_status_code e with
                           | Some c => c
                           | None => 500
                           end));
          ("error", VStr (http_error_text e))]
  | FetchRequestException text =>
      Ok [("success", VBool false); ("status", VInt 400); ("error", VStr text)]
  | FetchOther e => Raise e
  end.

(* ================================================================== *)
(** ** A concrete world for closed examples *)

Module Sample.

(** [str(x)] on the floats that are whole numbers of magnitude below [2^53]
    (["30.0"], ["-2.0"]); the text ["nan"] elsewhere, which is enough for the
    examples below. *)
Definition show_float (x : float) : string :=
  match Prim2SF x with
  | SpecFloat.S754_zero s => if s then "-0.0" else "0.0"
  | SpecFloat.S754_finite s m e =>
      let n := (match e with
                | Z0 => Some (Zpos m)
                | Zpos p => Some (Zpos m * 2 ^ Zpos p)
                | Zneg p => if Z.eqb (Zpos m mod 2 ^ Zpos p) 0
                            then Some (Zpos m / 2 ^ Zpos p) else None
                end)%Z in
      match n with
      | Some n => ((if s then "-" else "") ++ Str.of_Z n ++ ".0")%string
      | None => "nan"
      end
  | _ => "nan"
  end.

Definition two_digits (n : Z) : string :=
  if (n <? 10)%Z then ("0" ++ Str.of_Z n)%string else Str.of_Z n.

(** [strftime("%d.%m.%Y")] for a date of a four-digit year. *)
Definition show_date (d : datetime) : string :=
  (two_digits (day d) ++ "." ++ two_digits (month d) ++ "." ++ Str.of_Z (year d))%string.

Fixpoint digits (s : string) (acc : Z) : option Z :=
  match s with
  | EmptyString => Some acc
  | String c r =>
      let n := Z.of_nat (nat_of_ascii c) in
      if ((48 <=? n) && (n <=? 57))%Z then digits r (10 * acc + (n - 48))%Z
      else None
  end.

(** [int(s)] on plain runs of decimal digits. *)
Definition parse_digits (s : string) : option Z :=
  match s with
  | EmptyString => None
  | _ => digits s 0
  end.

(** The f-string text of a [PersonProperty] as recent versions of Python
    give it. *)
Definition show_property (p : PersonProperty.t) : string :=
  match p with
  | PersonProperty.SENDER => "PersonProperty.SENDER"
  | PersonProperty.RECIPIENT => "PersonProperty.RECIPIENT"
  end.

(** The world in which the remote side is [srv]. *)
Definition world (srv : trace -> request -> outcome) : World :=
  {| server := srv;
     str_float := show_float;
     strftime_dmY := show_date;
     int_str := parse_digits;
     format_property := show_property |}.

Definition api : NovaPoshtaAPI := {| api_key := "key"; timeout := 20 |}.

(** A sender at a branch or a parcel locker, by its address text. *)
Definition sender (address : string) (max_weight : float) : NovaPoshtaSender.t :=
  {| NovaPoshtaSender.city_identifier := "city-s";
     NovaPoshtaSender.agent_identifier := "agent-s";
     NovaPoshtaSender.address_identifier := "address-s";
     NovaPoshtaSender.agent_contact_identifier := "contact-s";
     NovaPoshtaSender.phone := "380500000001";
     NovaPoshtaSender.address := address;
     NovaPoshtaSender.department_number := 5;
     NovaPoshtaSender.max_weight_allowed := max_weight |}.

Definition receiver (address : string) (max_weight : float) : NovaPoshtaReceiver.t :=
  {| NovaPoshtaReceiver.city_identifier := "city-r";
     NovaPoshtaReceiver.agent_identifier := "agent-r";
     NovaPoshtaReceiver.address_identifier := "address-r";
     NovaPoshtaReceiver.agent_contact_identifier := "contact-r";
     NovaPoshtaReceiver.address := address;
     NovaPoshtaReceiver.department_number := 12;
     NovaPoshtaReceiver.max_weight_allowed := max_weight;
     NovaPoshtaReceiver.delivery_receiver :=
       {| DeliveryReceiver.phone := "380500000002" |} |}.

Definition date : datetime := {| year := 2024; month := 3; day := 7 |}.

(** A shipment whose stored payer is [payer]. *)
Definition shipment (payer : string) : NovaPoshta.t :=
  {| NovaPoshta.sender := sender "Branch 5" 30;
     NovaPoshta.receiver := receiver "Branch 12" 30;
     NovaPoshta.specified_weight := 2;
     NovaPoshta.with_backward_delivery := true;
     NovaPoshta.backward_amount := 100;
     NovaPoshta.postpaid_amount := 250;
     NovaPoshta.delivery_identifier := "doc-1";
     NovaPoshta.delivery_date := date;
     NovaPoshta.delivery :=
       {| DeliveryInfo.ttn := "20400000000001";
          DeliveryInfo.estimate_order_price := 500;
          DeliveryInfo.payer := payer;
          DeliveryInfo.comment := "" |} |}.

(** A remote side that accepts everything and has nothing to list. *)
Definition accepting : trace -> request -> outcome :=
  fun _ _ => Body (VDict [("success", VBool true); ("data", VList [])]).


(** A remote side that answers every request with 503. *)
Definition unavailable : trace -> request -> outcome :=
  fun _ _ => RaisesHTTPError
               {| response_status_code := Some 503;
                  http_error_text := "503 Server Error: Service Unavailable" |}.

(** A remote side that cannot be reached. *)
Definition unreachable : trace -> request -> outcome :=
  fun _ _ => RaisesRequestException "Connection refused".


(** A sender list as [get_sender_data] produces it: two entries carry the
    same name in different spellings. *)
Definition senders : list value :=
  [VDict [("agent_ref", VStr "a1"); ("first_name", VStr "John");
          ("last_name", VStr "Doe"); ("middle_name", VStr "");
          ("phone", VStr "380500000001")];
   VDict [("agent_ref", VStr "a2"); ("first_name", VStr " JOHN");
          ("last_name", VStr "doe "); ("middle_name", VNone);
          ("phone", VStr "380500000002")];
   VDict [("agent_ref", VStr "a3"); ("first_name", VStr "Olena");
          ("last_name", VStr "Koval"); ("middle_name", VStr "Ivanivna");
          ("phone", VStr "380500000003")]].


(** A remote side that answers every request with the list [data] and the
    paging info [info]. *)
Definition listing (data info : value) : trace -> request -> outcome :=
  fun _ _ => Body (VDict [("success", VBool true); ("data", data);
                          ("info", info)]).





Definition branch12 : dict :=
  [("Ref", VStr "w-12"); ("Number", VStr "12");
   ("Description", VStr "Branch 12"); ("WarehouseIndex", VStr "1/12");
   ("CityRef", VStr "c-2"); ("CityDescription", VStr "Kyiv");
   ("TotalMaxWeightAllowed", VStr "0"); ("PlaceMaxWeightAllowed", VStr "30")].






Definition agent1 : dict :=
  [("Ref", VStr "a-1"); ("Description", VStr "Private person");
   ("CounterpartyType", VStr "PrivatePerson"); ("EDRPOU", VStr "");
   ("City", VStr "c-2"); ("CityDescription", VStr "Kyiv")].

Definition agent2 : dict :=
  [("Ref", VStr "a-2"); ("Description", VStr "Shop");
   ("CounterpartyType", VStr "Organization"); ("EDRPOU", VStr "12345678");
   ("City", VStr "c-3"); ("CityDescription", VStr "Lviv")].

(** A remote side with two sender counterparties; [contacts] is its answer
    to every contact-person request. *)
Definition two_senders (contacts : value) : trace -> request -> outcome :=
  fun _ r =>
    if String.eqb (calledMethod r) "getCounterparties"
    then Body (VDict [("success", VBool true);
                      ("data", VList [VDict agent1; VDict agent2]);
                      ("info", VDict [("totalCount", VInt 2)])])
    else Body contacts.

(** A successful reply that lists nothing. *)
Definition nothing_listed : value :=
  VDict [("success", VBool true); ("data", VList []);
         ("info", VDict [("totalCount", VInt 0)])].

(** A reply that reports a failure of the remote side. *)
Definition refused : value :=
  VDict [("success", VBool false);
         ("errors", VList [VStr "Counterparty is not found"])].


(** A successful reply that lists one contact person. *)
Definition one_contact : value :=
  VDict [("success", VBool true);
         ("data", VList [VDict [("Ref", VStr "p-1"); ("FirstName", VStr "Ivan");
                                ("LastName", VStr "Franko");
                                ("MiddleName", VStr "");
                                ("Phones", VStr "380500000009");
                                ("Email", VStr "")]]);
         ("info", VDict [("totalCount", VInt 1)])].


(** A document host that answers every GET in the same way. *)
Definition host (answer : fetched) : DocumentHost :=
  {| fetch := fun _ => answer |}.

(** A PDF of five bytes served as an attachment. *)
Definition pdf : Response.t :=
  {| Response.status_code := 200;
     Response.headers :=
       [("content-type", "application/pdf");
        ("content-disposition",
         ("attachment; filename=" ++ Str.dquote ++ "waybill 1.pdf"
          ++ Str.dquote)%string)];
     Response.content := list_ascii_of_string "%PDF-" |}.


(** A reply that refuses the API key. *)
Definition bad_key : dict :=
  [("success", VBool false); ("data", VList []);
   ("errors", VList [VStr "API key is invalid"])].

(** A tracking record. *)
Definition tracked : dict :=
  [("Number", VStr "20400000000001"); ("RefEW", VStr "doc-1");
   ("StatusCode", VStr "9"); ("Status", VStr "Received");
   ("DateScan", VStr "2024-03-09 10:00:00");
   ("TrackingUpdateDate", VStr "2024-03-09 10:05:00")].


(** A shipment heavier than both parties allow. *)
Definition overweight : NovaPoshta.t :=
  {| NovaPoshta.sender := sender "Branch 5" 30;
     NovaPoshta.receiver := receiver "Branch 12" 30;
     NovaPoshta.specified_weight := 50;
     NovaPoshta.with_backward_delivery := false;
     NovaPoshta.backward_amount := 0;
     NovaPoshta.postpaid_amount := 0;
     NovaPoshta.delivery_identifier := "doc-2";
     NovaPoshta.delivery_date := date;
     NovaPoshta.delivery :=
       {| DeliveryInfo.ttn := "20400000000002";
          DeliveryInfo.estimate_order_price := 500;
          DeliveryInfo.payer := "Sender";
          DeliveryInfo.comment := "" |} |}.

End Sample.

(* ================================================================== *)
(** ** The vocabulary of the statements *)

(** [sub] occurs somewhere in [s]. *)
Definition occurs_in (sub s : string) : Prop :=
  exists pre post : string, s = (pre ++ sub ++ post)%string.









(** The flattened record of the counterparty [d] with the contact person
    [c0]. *)
Definition flat_record (d c0 : dict) : value :=
  VDict [("agent_ref", get d "Ref");
         ("agent_description", get d "Description");
         ("agent_type", get d "CounterpartyType");
         ("agent_edrpou", get d "EDRPOU");
         ("agent_city_ref", get d "City");
         ("agent_city", get d "CityDescription");
         ("contact_ref", get c0 "Ref");
         ("first_name", get c0 "FirstName");
         ("last_name", get c0 "LastName");
         ("middle_name", get c0 "MiddleName");
         ("phone", get c0 "Phones");
         ("email", get c0 "Email")].

(** The flattened record of a counterparty without a contact person: every
    field that comes from the contact is [None]. *)
Definition sender_without_contact (d : dict) : value :=
  VDict [("agent_ref", get d "Ref");
         ("agent_description", get d "Description");
         ("agent_type", get d "CounterpartyType");
         ("agent_edrpou", get d "EDRPOU");
         ("agent_city_ref", get d "City");
         ("agent_city", get d "CityDescription");
         ("contact_ref", VNone);
         ("first_name", VNone);
         ("last_name", VNone);
         ("middle_name", VNone);
         ("phone", VNone);
         ("email", VNone)].

(** The contact-person request [get_sender_data] issues for the
    counterparty [d]. *)
Definition contact_request (self : NovaPoshtaAPI) (d : dict) : request :=
  envelope self "Counterparty" "getCounterpartyContactPersons"
    (Some [("Ref", get d "Ref")]).

(** A field [_map_wh] turns into a number: something false, which counts as
    0, an [int], or a [str] that [int] reads. *)
Definition numeric_field {W : World} (v : value) : bool :=
  match v with
  | VInt _ | VBool _ => true
  | VStr s => match int_str s with
              | Some _ => true
              | None => String.eqb s ""
              end
  | _ => negb (truthy v)
  end.

(** The text [_post] reports for a failure of the remote side whose errors
    are [es] and whose message codes are [cs]. *)
Definition failure_text (es cs : list string) : string :=
  if negb (String.eqb (Str.join "; " es) "") then Str.join "; " es
  else if negb (String.eqb (Str.join "; " cs) "") then Str.join "; " cs
  else "API error".

(** The local checks of [create_waybill] all pass: both maxima are non-zero
    and the weight is above neither. *)
Definition weights_accepted (sender : NovaPoshtaSender.t)
    (receiver : NovaPoshtaReceiver.t) (specified_weight : float) : bool :=
  negb (PrimFloat.eqb (NovaPoshtaSender.max_weight_allowed sender) PrimFloat.zero)
  && negb (PrimFloat.eqb (NovaPoshtaReceiver.max_weight_allowed receiver)
             PrimFloat.zero)
  && negb (PrimFloat.ltb (NovaPoshtaSender.max_weight_allowed sender)
             specified_weight)
  && negb (PrimFloat.ltb (NovaPoshtaReceiver.max_weight_allowed receiver)
             specified_weight).

(** One of the two addresses names a parcel locker. *)
Definition post_machine (sender : NovaPoshtaSender.t)
    (receiver : NovaPoshtaReceiver.t) : bool :=
  Str.contains "Postomat" (NovaPoshtaSender.address sender)
  || Str.contains "Postomat" (NovaPoshtaReceiver.address receiver).

(** The seat descriptor of a parcel locker for a weight given as text. *)
Definition locker_seat (weight : string) : value :=
  VList [VDict [("volumetricVolume", VStr "1");
                ("volumetricWidth", VStr "40");
                ("volumetricLength", VStr "40");
                ("volumetricHeight", VStr "30");
                ("weight", VStr weight)]].

(** The character [c] does not occur in [s]. *)
Fixpoint free_of (c : ascii) (s : string) : bool :=
  match s with
  | EmptyString => true
  | String x r => negb (Ascii.eqb x c) && free_of c r
  end.

(* ================================================================== *)
(** * Properties *)

(** ** Strings *)

Example lower_mixed_case : Str.lower "KyIV" = "kyiv".
Proof. reflexivity. Qed.

Example strip_padded : Str.strip "  a b  " = "a b".
Proof. reflexivity. Qed.

Example contains_marker : Str.contains "Postomat" "Kyiv, Postomat 12" = true.
Proof. reflexivity. Qed.

Example of_Z_samples : (Str.of_Z 0, Str.of_Z 12, Str.of_Z (-7)) = ("0", "12", "-7").
Proof. reflexivity. Qed.


Lemma lower_app (a b : string) :
  Str.lower (a ++ b) = (Str.lower a ++ Str.lower b)%string.
Proof. induction a as [|c a IH]; simpl; [reflexivity | now rewrite IH]. Qed.













Lemma startswith_spec (p s : string) :
  Str.startswith p s = true <-> exists post : string, s = (p ++ post)%string.
Proof.
  revert s. induction p as [|a p IH]; intros s; simpl.
  - split; [intros _; now exists s | reflexivity].
  - destruct s as [|b s].
    + split; [discriminate | intros [post H]; discriminate].
    + rewrite andb_true_iff, IH. split.
      * intros [Hab [post ->]]. apply Ascii.eqb_eq in Hab as ->. now exists post.
      * intros [post H]. injection H as -> ->.
        split; [apply Ascii.eqb_refl | now exists post].
Qed.

Lemma contains_unfold (sub s : string) :
  Str.contains sub s
  = Str.startswith sub s
    || match s with
       | EmptyString => false
       | String _ r => Str.contains sub r
       end.
Proof. destruct s; reflexivity. Qed.

(** [sub in s] is the substring test. *)
Lemma contains_spec (sub s : string) :
  Str.contains sub s = true <-> occurs_in sub s.
Proof.
  unfold occurs_in. split.
  - induction s as [|c s IH]; rewrite contains_unfold, orb_true_iff.
    + intros [H | H]; [|discriminate].
      apply startswith_spec in H as [post ->]. now exists EmptyString, post.
    + intros [H | H].
      * apply startswith_spec in H as [post ->]. now exists EmptyString, post.
      * destruct (IH H) as [pre [post ->]]. now exists (String c pre), post.
  - intros [pre [post ->]]. induction pre as [|c pre IH].
    + rewrite contains_unfold. apply orb_true_iff. left.
      apply startswith_spec. now exists post.
    + simpl. rewrite IH. apply orb_true_r.
Qed.

(* ================================================================== *)
(** ** Waybills *)

Section Waybills.

Context {W : World}.

(** C7. When the address text of the sender or of the receiver contains the
    marker "Postomat", [set_additional_parameters] answers cargo type
    "Parcel" and a one-element [options_seat] with the literal dimensions
    40 x 40 x 30, volumetric volume "1" and the weight as [str] gives it;
    and whenever backward delivery is asked for, a one-element
    [backward_delivery_data] with the payer role, cargo type "Money" and the
    redelivery amount, a string. *)
Theorem set_additional_parameters_rules
    (sender : NovaPoshtaSender.t) (receiver : NovaPoshtaReceiver.t)
    (specified_weight : float) (cargo_type : CargoType.t)
    (backward_delivery : bool) (backward_amount payer_type : string) :
  (occurs_in "Postomat" (NovaPoshtaSender.address sender)
   \/ occurs_in "Postomat" (NovaPoshtaReceiver.address receiver) ->
   get (set_additional_parameters sender receiver specified_weight cargo_type
          backward_delivery backward_amount payer_type) "cargo_type"
   = VStr "Parcel"
   /\ get (set_additional_parameters sender receiver specified_weight cargo_type
             backward_delivery backward_amount payer_type) "options_seat"
      = VList [VDict [("volumetricVolume", VStr "1");
                      ("volumetricWidth", VStr "40");
                      ("volumetricLength", VStr "40");
                      ("volumetricHeight", VStr "30");
                      ("weight", VStr (str_float specified_weight))]])
  /\ (backward_delivery = true ->
      get (set_additional_parameters sender receiver specified_weight cargo_type
             backward_delivery backward_amount payer_type) "backward_delivery_data"
      = VList [VDict [("PayerType", VStr payer_type);
                      ("CargoType", VStr "Money");
                      ("RedeliveryString", VStr backward_amount)]]).
Proof.
  split.
  - intros H.
    assert (Hm : Str.contains "Postomat" (NovaPoshtaSender.address sender)
                 || Str.contains "Postomat" (NovaPoshtaReceiver.address receiver)
                 = true).
    { apply orb_true_iff. destruct H as [H | H]; [left | right];
        now apply contains_spec. }
    unfold set_additional_parameters.
    change (WarehouseType.value WarehouseType.POST_MACHINE) with "Postomat".
    rewrite Hm. split; reflexivity.
  - intros ->. reflexivity.
Qed.

(** Without the marker the cargo type of the caller stands and no seat
    descriptor is attached. *)
Lemma set_additional_parameters_plain
    (sender : NovaPoshtaSender.t) (receiver : NovaPoshtaReceiver.t)
    (specified_weight : float) (cargo_type : CargoType.t)
    (backward_delivery : bool) (backward_amount payer_type : string) :
  Str.contains "Postomat" (NovaPoshtaSender.address sender) = false ->
  Str.contains "Postomat" (NovaPoshtaReceiver.address receiver) = false ->
  set_additional_parameters sender receiver specified_weight cargo_type
    false backward_amount payer_type
  = [("options_seat", VNone);
     ("cargo_type", VStr (CargoType.value cargo_type));
     ("backward_delivery_data", VNone)].
Proof.
  intros Hs Hr. unfold set_additional_parameters.
  change (WarehouseType.value WarehouseType.POST_MACHINE) with "Postomat".
  now rewrite Hs, Hr.
Qed.

(** What [create_waybill_props] reads back from the additional parameters is
    always there. *)
Lemma additional_parameters_keys
    (sender : NovaPoshtaSender.t) (receiver : NovaPoshtaReceiver.t)
    (w : float) (cargo_type : CargoType.t) (bd : bool) (amount payer : string) :
  exists seat cargo back : value,
    set_additional_parameters sender receiver w cargo_type bd amount payer
    = [("options_seat", seat); ("cargo_type", cargo);
       ("backward_delivery_data", back)].
Proof. unfold set_additional_parameters. eauto. Qed.

(** Building the property map of [create_waybill] raises nothing. *)
Lemma create_waybill_props_total
    (sender : NovaPoshtaSender.t) (receiver : NovaPoshtaReceiver.t)
    (declared_price : string) (delivery_date : datetime)
    (specified_weight : float) (payment_method payer_type : string)
    (cargo_type : CargoType.t) (comment : string) (goods_count : Z)
    (with_backward_delivery : bool) (backward_amount postpaid_amount : float) :
  exists props : dict,
    create_waybill_props sender receiver declared_price delivery_date
      specified_weight payment_method payer_type cargo_type comment goods_count
      with_backward_delivery backward_amount postpaid_amount = Ok props.
Proof.
  unfold create_waybill_props.
  destruct (additional_parameters_keys sender receiver specified_weight
              cargo_type with_backward_delivery (str_float backward_amount)
              payer_type) as [seat [cargo [back ->]]].
  destruct (String.eqb payment_method (PaymentMethod.value PaymentMethod.CASH));
    eexists; reflexivity.
Qed.

(** C4. The property map built by [create_waybill] holds
    [BackwardDeliveryData] and no [AfterpaymentOnGoodsCost] when the payment
    method is "Cash", and for every other payment method holds
    [AfterpaymentOnGoodsCost], the postpaid amount as [str] gives it, and no
    [BackwardDeliveryData]; the two keys never come together.  The map is
    what [create_waybill] posts whenever it reaches the network. *)
Theorem create_waybill_payment_keys
    (self : NovaPoshtaAPI) (sender : NovaPoshtaSender.t)
    (receiver : NovaPoshtaReceiver.t) (declared_price : string)
    (delivery_date : datetime) (specified_weight : float)
    (payment_method payer_type : string) (cargo_type : CargoType.t)
    (comment : string) (goods_count : Z) (with_backward_delivery : bool)
    (backward_amount postpaid_amount : float) (t : trace) :
  exists props : dict,
    create_waybill_props sender receiver declared_price delivery_date
      specified_weight payment_method payer_type cargo_type comment goods_count
      with_backward_delivery backward_amount postpaid_amount = Ok props
    /\ (if String.eqb payment_method "Cash"
        then has_key props "BackwardDeliveryData" = true
             /\ has_key props "AfterpaymentOnGoodsCost" = false
        else lookup props "AfterpaymentOnGoodsCost"
             = Some (VStr (str_float postpaid_amount))
             /\ has_key props "BackwardDeliveryData" = false)
    /\ has_key props "BackwardDeliveryData"
       && has_key props "AfterpaymentOnGoodsCost" = false
    /\ (snd (create_waybill self sender receiver declared_price delivery_date
               specified_weight payment_method payer_type cargo_type comment
               goods_count with_backward_delivery backward_amount
               postpaid_amount t) = t
        \/ create_waybill self sender receiver declared_price delivery_date
             specified_weight payment_method payer_type cargo_type comment
             goods_count with_backward_delivery backward_amount
             postpaid_amount t
           = _post self "InternetDocument" "save" (Some props) t).
Proof.
  unfold create_waybill, create_waybill_props.
  destruct (additional_parameters_keys sender receiver specified_weight
              cargo_type with_backward_delivery (str_float backward_amount)
              payer_type) as [seat [cargo [back ->]]].
  change (PaymentMethod.value PaymentMethod.CASH) with "Cash".
  destruct (String.eqb payment_method "Cash") eqn:Hpm;
    (eexists; split; [reflexivity|]);
    (split; [split; reflexivity|]); (split; [reflexivity|]);
    destruct (float_is_zero (NovaPoshtaSender.max_weight_allowed sender)
              || float_is_zero (NovaPoshtaReceiver.max_weight_allowed receiver));
    try (left; reflexivity);
    destruct (PrimFloat.ltb (NovaPoshtaSender.max_weight_allowed sender)
                specified_weight);
    try (left; reflexivity);
    destruct (PrimFloat.ltb (NovaPoshtaReceiver.max_weight_allowed receiver)
                specified_weight);
    try (left; reflexivity);
    right; reflexivity.
Qed.

(** C8. [update_waybill] takes its payment method from
    [get_payment_method_display], which answers "NonCash" for every delivery
    descriptor, whatever payer is stored; so for every shipment the property
    map it posts holds [AfterpaymentOnGoodsCost] and never
    [BackwardDeliveryData]. *)
Theorem update_waybill_always_non_cash
    (self : NovaPoshtaAPI) (nova_poshta : NovaPoshta.t) (goods_count : Z)
    (t : trace) :
  DeliveryInfo.get_payment_method_display (NovaPoshta.delivery nova_poshta)
  = "NonCash"
  /\ exists props : dict,
       update_waybill_props nova_poshta goods_count = Ok props
       /\ lookup props "PaymentMethod" = Some (VStr "NonCash")
       /\ lookup props "AfterpaymentOnGoodsCost"
          = Some (VStr (str_float (NovaPoshta.postpaid_amount nova_poshta)))
       /\ has_key props "BackwardDeliveryData" = false
       /\ update_waybill self nova_poshta goods_count t
          = _post self "InternetDocument" "update" (Some props) t.
Proof.
  split; [reflexivity|].
  unfold update_waybill, update_waybill_props.
  destruct (additional_parameters_keys (NovaPoshta.sender nova_poshta)
              (NovaPoshta.receiver nova_poshta)
              (NovaPoshta.specified_weight nova_poshta) CargoType.CARGO
              (NovaPoshta.with_backward_delivery nova_poshta)
              (str_float (NovaPoshta.backward_amount nova_poshta))
              (DeliveryInfo.payer (NovaPoshta.delivery nova_poshta)))
    as [seat [cargo [back ->]]].
  eexists. split; [reflexivity|]. repeat split.
Qed.

(** The accessor does not read the descriptor at all. *)
Lemma get_payment_method_display_constant (d d' : DeliveryInfo.t) :
  DeliveryInfo.get_payment_method_display d
  = DeliveryInfo.get_payment_method_display d'.
Proof. reflexivity. Qed.

(** C3, as the code has it.  Before any request: a maximum weight that is
    zero, of the sender or of the receiver, gives 400 "Invalid max weight";
    with both non-zero, a specified weight above the sender's maximum gives
    400 with the sender's message; and one that is not, but is above the
    receiver's maximum, 400 with the receiver's message.  In the three cases
    the trace of requests is left as it was. *)
Theorem create_waybill_local_checks
    (self : NovaPoshtaAPI) (sender : NovaPoshtaSender.t)
    (receiver : NovaPoshtaReceiver.t) (declared_price : string)
    (delivery_date : datetime) (specified_weight : float)
    (payment_method payer_type : string) (cargo_type : CargoType.t)
    (comment : string) (goods_count : Z) (with_backward_delivery : bool)
    (backward_amount postpaid_amount : float) (t : trace) :
  (PrimFloat.eqb (NovaPoshtaSender.max_weight_allowed sender) PrimFloat.zero = true
   \/ PrimFloat.eqb (NovaPoshtaReceiver.max_weight_allowed receiver) PrimFloat.zero
      = true ->
   create_waybill self sender receiver declared_price delivery_date
     specified_weight payment_method payer_type cargo_type comment goods_count
     with_backward_delivery backward_amount postpaid_amount t
   = (Ok [("status", VBool false); ("status_code", VInt 400);
          ("error", VStr "Invalid max weight")], t))
  /\ (PrimFloat.eqb (NovaPoshtaSender.max_weight_allowed sender) PrimFloat.zero
      = false ->
      PrimFloat.eqb (NovaPoshtaReceiver.max_weight_allowed receiver) PrimFloat.zero
      = false ->
      PrimFloat.ltb (NovaPoshtaSender.max_weight_allowed sender) specified_weight
      = true ->
      create_waybill self sender receiver declared_price delivery_date
        specified_weight payment_method payer_type cargo_type comment
        goods_count with_backward_delivery backward_amount postpaid_amount t
      = (Ok [("status", VBool false); ("status_code", VInt 400);
             ("error", VStr "Too much specified weight (sender)")], t))
  /\ (PrimFloat.eqb (NovaPoshtaSender.max_weight_allowed sender) PrimFloat.zero
      = false ->
      PrimFloat.eqb (NovaPoshtaReceiver.max_weight_allowed receiver) PrimFloat.zero
      = false ->
      PrimFloat.ltb (NovaPoshtaSender.max_weight_allowed sender) specified_weight
      = false ->
      PrimFloat.ltb (NovaPoshtaReceiver.max_weight_allowed receiver)
        specified_weight = true ->
      create_waybill self sender receiver declared_price delivery_date
        specified_weight payment_method payer_type cargo_type comment
        goods_count with_backward_delivery backward_amount postpaid_amount t
      = (Ok [("status", VBool false); ("status_code", VInt 400);
             ("error", VStr "Too much specified weight (receiver)")], t)).
Proof.
  unfold create_waybill, float_is_zero. repeat split.
  - intros H.
    assert (Hz : PrimFloat.eqb (NovaPoshtaSender.max_weight_allowed sender)
                   PrimFloat.zero
                 || PrimFloat.eqb (NovaPoshtaReceiver.max_weight_allowed receiver)
                      PrimFloat.zero = true)
      by (apply orb_true_iff; exact H).
    now rewrite Hz.
  - intros Hs Hr Hgt. now rewrite Hs, Hr, Hgt.
  - intros Hs Hr Hle Hgt. now rewrite Hs, Hr, Hle, Hgt.
Qed.

(** When every check passes, exactly one request goes out: the save of the
    property map. *)
Lemma create_waybill_posts
    (self : NovaPoshtaAPI) (sender : NovaPoshtaSender.t)
    (receiver : NovaPoshtaReceiver.t) (declared_price : string)
    (delivery_date : datetime) (specified_weight : float)
    (payment_method payer_type : string) (cargo_type : CargoType.t)
    (comment : string) (goods_count : Z) (with_backward_delivery : bool)
    (backward_amount postpaid_amount : float) (t : trace) :
  float_is_zero (NovaPoshtaSender.max_weight_allowed sender) = false ->
  float_is_zero (NovaPoshtaReceiver.max_weight_allowed receiver) = false ->
  PrimFloat.ltb (NovaPoshtaSender.max_weight_allowed sender) specified_weight
  = false ->
  PrimFloat.ltb (NovaPoshtaReceiver.max_weight_allowed receiver) specified_weight
  = false ->
  exists props : dict,
    create_waybill_props sender receiver declared_price delivery_date
      specified_weight payment_method payer_type cargo_type comment goods_count
      with_backward_delivery backward_amount postpaid_amount = Ok props
    /\ snd (create_waybill self sender receiver declared_price delivery_date
              specified_weight payment_method payer_type cargo_type comment
              goods_count with_backward_delivery backward_amount
              postpaid_amount t)
       = (t ++ [envelope self "InternetDocument" "save" (Some props)])%list.
Proof.
  intros Hs Hr H1 H2.
  destruct (create_waybill_props_total sender receiver declared_price
              delivery_date specified_weight payment_method payer_type
              cargo_type comment goods_count with_backward_delivery
              backward_amount postpaid_amount) as [props Hp].
  exists props. split; [exact Hp|].
  unfold create_waybill. rewrite Hs, Hr, H1, H2, Hp. simpl.
  unfold bind, lift, _post.
  destruct (server t (envelope self "InternetDocument" "save" (Some props)));
    reflexivity.
Qed.

End Waybills.

(** The rules of C7 at a sender whose address names a parcel locker. *)
Lemma set_additional_parameters_rules_witness :
  get (set_additional_parameters (W := Sample.world Sample.accepting)
         (Sample.sender "Postomat 5" 30) (Sample.receiver "Branch 12" 30)
         2 CargoType.CARGO true "100.0" "Recipient") "cargo_type"
  = VStr "Parcel"
  /\ get (set_additional_parameters (W := Sample.world Sample.accepting)
            (Sample.sender "Postomat 5" 30) (Sample.receiver "Branch 12" 30)
            2 CargoType.CARGO true "100.0" "Recipient") "options_seat"
     = VList [VDict [("volumetricVolume", VStr "1");
                     ("volumetricWidth", VStr "40");
                     ("volumetricLength", VStr "40");
                     ("volumetricHeight", VStr "30");
                     ("weight", VStr "2.0")]]
  /\ get (set_additional_parameters (W := Sample.world Sample.accepting)
            (Sample.sender "Postomat 5" 30) (Sample.receiver "Branch 12" 30)
            2 CargoType.CARGO true "100.0" "Recipient") "backward_delivery_data"
     = VList [VDict [("PayerType", VStr "Recipient");
                     ("CargoType", VStr "Money");
                     ("RedeliveryString", VStr "100.0")]].
Proof.
  destruct (set_additional_parameters_rules (W := Sample.world Sample.accepting)
              (Sample.sender "Postomat 5" 30) (Sample.receiver "Branch 12" 30)
              2 CargoType.CARGO true "100.0" "Recipient") as [Hmarker Hback].
  destruct Hmarker as [Hcargo Hseat].
  { left. apply contains_spec. reflexivity. }
  split; [exact Hcargo | split; [exact Hseat | apply Hback; reflexivity]].
Defined.

Example create_waybill_props_cash :
  rbind (create_waybill_props (W := Sample.world Sample.accepting)
           (Sample.sender "Branch 5" 30) (Sample.receiver "Branch 12" 30)
           "500" Sample.date 2 "Cash" "Sender" CargoType.CARGO "" 1 true 100 250)
        (fun props => Ok (lookup props "BackwardDeliveryData",
                          lookup props "AfterpaymentOnGoodsCost"))
  = Ok (Some (VList [VDict [("PayerType", VStr "Sender");
                            ("CargoType", VStr "Money");
                            ("RedeliveryString", VStr "100.0")]]),
        None).
Proof. reflexivity. Qed.

Example create_waybill_props_card :
  rbind (create_waybill_props (W := Sample.world Sample.accepting)
           (Sample.sender "Branch 5" 30) (Sample.receiver "Branch 12" 30)
           "500" Sample.date 2 "Card" "Sender" CargoType.CARGO "" 1 true 100 250)
        (fun props => Ok (lookup props "BackwardDeliveryData",
                          lookup props "AfterpaymentOnGoodsCost"))
  = Ok (None, Some (VStr "250.0")).
Proof. reflexivity. Qed.

Example update_waybill_props_recipient_pays :
  rbind (update_waybill_props (W := Sample.world Sample.accepting)
           (Sample.shipment "Recipient") 1)
        (fun props => Ok (lookup props "PayerType", lookup props "PaymentMethod",
                          lookup props "BackwardDeliveryData",
                          lookup props "AfterpaymentOnGoodsCost"))
  = Ok (Some (VStr "Recipient"), Some (VStr "NonCash"), None,
        Some (VStr "250.0")).
Proof. reflexivity. Qed.

(** The checks of C3 at a sender whose maximum weight is zero, at a parcel
    too heavy for the sender, and at one too heavy for the receiver only. *)
Lemma create_waybill_local_checks_witness :
  create_waybill (W := Sample.world Sample.accepting) Sample.api
    (Sample.sender "Branch 5" 0) (Sample.receiver "Branch 12" 30)
    "500" Sample.date 2 "NonCash" "Sender" CargoType.CARGO "" 1 false 0 0 []
  = (Ok [("status", VBool false); ("status_code", VInt 400);
         ("error", VStr "Invalid max weight")], [])
  /\ create_waybill (W := Sample.world Sample.accepting) Sample.api
       (Sample.sender "Branch 5" 10) (Sample.receiver "Branch 12" 30)
       "500" Sample.date 20 "NonCash" "Sender" CargoType.CARGO "" 1 false 0 0 []
     = (Ok [("status", VBool false); ("status_code", VInt 400);
            ("error", VStr "Too much specified weight (sender)")], [])
  /\ create_waybill (W := Sample.world Sample.accepting) Sample.api
       (Sample.sender "Branch 5" 30) (Sample.receiver "Branch 12" 10)
       "500" Sample.date 20 "NonCash" "Sender" CargoType.CARGO "" 1 false 0 0 []
     = (Ok [("status", VBool false); ("status_code", VInt 400);
            ("error", VStr "Too much specified weight (receiver)")], []).
Proof.
  split; [|split].
  - apply (create_waybill_local_checks (W := Sample.world Sample.accepting)).
    left. reflexivity.
  - apply (create_waybill_local_checks (W := Sample.world Sample.accepting));
      reflexivity.
  - apply (create_waybill_local_checks (W := Sample.world Sample.accepting));
      reflexivity.
Defined.

(** C3 as stated fails on a maximum weight below zero: it is not positive,
    yet a parcel of weight 1 is refused with the sender's message, not with
    "Invalid max weight", and a parcel of weight -2 passes every check and is
    posted. *)
Lemma create_waybill_negative_max_weight :
  PrimFloat.ltb PrimFloat.zero
    (NovaPoshtaSender.max_weight_allowed (Sample.sender "Branch 5" (-1))) = false
  /\ create_waybill (W := Sample.world Sample.accepting) Sample.api
       (Sample.sender "Branch 5" (-1)) (Sample.receiver "Branch 12" 30)
       "500" Sample.date 1 "NonCash" "Sender" CargoType.CARGO "" 1 false 0 0 []
     = (Ok [("status", VBool false); ("status_code", VInt 400);
            ("error", VStr "Too much specified weight (sender)")], [])
  /\ create_waybill (W := Sample.world Sample.accepting) Sample.api
       (Sample.sender "Branch 5" (-1)) (Sample.receiver "Branch 12" 30)
       "500" Sample.date 1 "NonCash" "Sender" CargoType.CARGO "" 1 false 0 0 []
     <> (Ok [("status", VBool false); ("status_code", VInt 400);
             ("error", VStr "Invalid max weight")], [])
  /\ (exists props : dict,
        create_waybill (W := Sample.world Sample.accepting) Sample.api
          (Sample.sender "Branch 5" (-1)) (Sample.receiver "Branch 12" 30)
          "500" Sample.date (-2) "NonCash" "Sender" CargoType.CARGO "" 1
          false 0 0 []
        = (Ok [("status", VBool true); ("status_code", VInt 200);
               ("success", VBool true); ("data", VList [])],
           [envelope Sample.api "InternetDocument" "save" (Some props)])).
Proof.
  split; [reflexivity|]. split; [reflexivity|]. split; [discriminate|].
  eexists. reflexivity.
Qed.

(* ================================================================== *)
(** ** The transport and the list normaliser *)

Section Transport.

Context {W : World}.

(** A request is recorded whatever comes back. *)
Lemma post_trace (self : NovaPoshtaAPI) (model method : string)
    (props : option dict) (t : trace) :
  snd (_post self model method props t)
  = (t ++ [envelope self model method props])%list.
Proof.
  unfold _post.
  destruct (server t (envelope self model method props)); reflexivity.
Qed.


(** [_post] lets through exactly what the transport raised outside the
    [requests] hierarchy, or what reading the body raised. *)
Lemma post_raises (self : NovaPoshtaAPI) (model method : string)
    (props : option dict) (t : trace) (e : exn) :
  fst (_post self model method props t) = Raise e ->
  server t (envelope self model method props) = RaisesOther e
  \/ exists body : value,
       server t (envelope self model method props) = Body body
       /\ classify_body body = Raise e.
Proof.
  unfold _post.
  destruct (server t (envelope self model method props)) as [body | h | s | e'];
    simpl; intros H; try discriminate.
  - right. now exists body.
  - left. congruence.
Qed.

(** The three answers of [_list_ok]. *)
Lemma list_ok_failed (resp : dict) (msg : string) :
  truthy (get resp "status") = false -> _list_ok resp msg = resp.
Proof. intros H. unfold _list_ok. now rewrite H. Qed.

Lemma list_ok_empty (resp : dict) (msg : string) :
  truthy (get resp "status") = true ->
  truthy (get resp "data") = false ->
  _list_ok resp msg
  = [("status", VBool false); ("status_code", VInt 404); ("error", VStr msg)].
Proof.
  intros Hs Hd. unfold _list_ok, or_. rewrite Hs, Hd. reflexivity.
Qed.

Lemma list_ok_data (resp : dict) (msg : string) :
  truthy (get resp "status") = true ->
  truthy (get resp "data") = true ->
  _list_ok resp msg
  = [("status", VBool true); ("data", get resp "data");
     ("info", get_or resp "info" (VDict []))].
Proof.
  intros Hs Hd. unfold _list_ok, or_. rewrite Hs, Hd. simpl. now rewrite Hd.
Qed.

(** C2. [_list_ok] returns a response whose status is false as it is; turns
    a successful one whose [data] is empty or absent into
    [{status: False, status_code: 404, error: msg}] with the caller's
    message; and otherwise returns [{status: True, data, info}] with the
    list and the paging info, or an empty mapping when there is none.
    [find_city_by_name], [find_warehouse_in_city] and
    [find_agents_by_property] each pass the reply of their request through
    it with their own message, and return its answer as it is when that
    answer is a failure. *)
Theorem list_ok_normalizes (resp : dict) (msg : string) :
  (truthy (get resp "status") = false -> _list_ok resp msg = resp)
  /\ (truthy (get resp "status") = true ->
      lookup resp "data" = None \/ get resp "data" = VList [] ->
      _list_ok resp msg
      = [("status", VBool false); ("status_code", VInt 404);
         ("error", VStr msg)])
  /\ (forall (x : value) (l : list value),
        truthy (get resp "status") = true ->
        get resp "data" = VList (x :: l) ->
        _list_ok resp msg
        = [("status", VBool true); ("data", VList (x :: l));
           ("info", get_or resp "info" (VDict []))])
  /\ (forall (self : NovaPoshtaAPI) (city : string) (limit page : Z)
             (t t' : trace) (res : dict),
        _post self "Address" "getCities"
          (Some [("FindByString", VStr city); ("Limit", VInt limit);
                 ("Page", VInt page)]) t = (Ok res, t') ->
        truthy (get (_list_ok res (city_not_found city)) "status") = false ->
        find_city_by_name self city limit page t
        = (Ok (_list_ok res (city_not_found city)), t'))
  /\ (forall (self : NovaPoshtaAPI) (city_ref : option string)
             (warehouse_number : option Z) (warehouse_string : option string)
             (city : string) (limit page : Z) (t t' : trace) (res : dict),
        _post self "AddressGeneral" "getWarehouses"
          (Some (warehouse_props city_ref warehouse_number warehouse_string
                   limit page)) t = (Ok res, t') ->
        truthy (get (_list_ok res (warehouse_not_found warehouse_number city))
                  "status") = false ->
        find_warehouse_in_city self city_ref warehouse_number warehouse_string
          city limit page t
        = (Ok (_list_ok res (warehouse_not_found warehouse_number city)), t'))
  /\ (forall (self : NovaPoshtaAPI) (property : PersonProperty.t) (page : Z)
             (t t' : trace) (res : dict),
        _post self "Counterparty" "getCounterparties"
          (Some [("CounterpartyProperty", VStr (PersonProperty.value property));
                 ("Page", VInt page)]) t = (Ok res, t') ->
        truthy (get (_list_ok res (agents_not_found property)) "status") = false ->
        find_agents_by_property self property page t
        = (Ok (_list_ok res (agents_not_found property)), t')).
Proof.
  split; [apply list_ok_failed|].
  split.
  { intros Hs Hd. apply list_ok_empty; [exact Hs|].
    destruct Hd as [Hd | Hd].
    - unfold get, get_or. now rewrite Hd.
    - now rewrite Hd. }
  split.
  { intros x l Hs Hd. rewrite <- Hd. apply list_ok_data; [exact Hs|].
    now rewrite Hd. }
  split; [|split].
  - intros self city limit page t t' res Hpost Hchk.
    unfold find_city_by_name, bind. rewrite Hpost, Hchk. reflexivity.
  - intros self city_ref number wstring city limit page t t' res Hpost Hchk.
    unfold find_warehouse_in_city, bind. rewrite Hpost, Hchk. reflexivity.
  - intros self property page t t' res Hpost Hchk.
    unfold find_agents_by_property, bind. rewrite Hpost, Hchk. reflexivity.
Qed.

(** A failure of the transport comes out of the list operations as [_post]
    made it: here out of [find_city_by_name], when nothing answers. *)
Lemma find_city_by_name_unreachable (self : NovaPoshtaAPI) (city : string)
    (limit page : Z) (t : trace) (text : string) :
  server t (envelope self "Address" "getCities"
              (Some [("FindByString", VStr city); ("Limit", VInt limit);
                     ("Page", VInt page)]))
  = RaisesRequestException text ->
  fst (find_city_by_name self city limit page t)
  = Ok [("status", VBool false); ("status_code", VInt 400);
        ("error", VStr text)].
Proof.
  intros H. unfold find_city_by_name, bind, _post. rewrite H. reflexivity.
Qed.

End Transport.


(** An [HTTPError] that carries no response is reported as 400. *)
Example post_http_error_without_response :
  fst (_post (W := Sample.world
                     (fun _ _ => RaisesHTTPError
                                   {| response_status_code := None;
                                      http_error_text := "error" |}))
         Sample.api "ScanSheet" "getScanSheetList" None [])
  = Ok [("status", VBool false); ("status_code", VInt 400);
        ("error", VStr "error")].
Proof. reflexivity. Qed.

(** C2 at a failed response, at an empty and at a non-empty list, and in the
    three operations when the remote side has nothing to list. *)
Lemma list_ok_normalizes_witness :
  _list_ok [("status", VBool false); ("status_code", VInt 503);
            ("error", VStr "down")] "nothing"
  = [("status", VBool false); ("status_code", VInt 503); ("error", VStr "down")]
  /\ _list_ok [("status", VBool true); ("status_code", VInt 200);
               ("data", VList [])] "nothing"
     = [("status", VBool false); ("status_code", VInt 404);
        ("error", VStr "nothing")]
  /\ _list_ok [("status", VBool true); ("status_code", VInt 200);
               ("data", VList [VInt 7])] "nothing"
     = [("status", VBool true); ("data", VList [VInt 7]); ("info", VDict [])]
  /\ fst (find_city_by_name (W := Sample.world Sample.accepting) Sample.api
            "Kyiv" 50 1 [])
     = Ok [("status", VBool false); ("status_code", VInt 404);
           ("error", VStr (city_not_found "Kyiv"))]
  /\ fst (find_warehouse_in_city (W := Sample.world Sample.accepting) Sample.api
            (Some "city-1") (Some 12) None "Kyiv" 50 1 [])
     = Ok [("status", VBool false); ("status_code", VInt 404);
           ("error", VStr (warehouse_not_found (Some 12) "Kyiv"))]
  /\ fst (find_agents_by_property (W := Sample.world Sample.accepting) Sample.api
            PersonProperty.SENDER 1 [])
     = Ok [("status", VBool false); ("status_code", VInt 404);
           ("error", VStr (agents_not_found (W := Sample.world Sample.accepting)
                             PersonProperty.SENDER))].
Proof.
  pose (reply := [("status", VBool true); ("status_code", VInt 200);
                  ("success", VBool true); ("data", VList [])] : dict).
  split; [|split; [|split; [|split; [|split]]]].
  - apply (list_ok_normalizes (W := Sample.world Sample.accepting)). reflexivity.
  - apply (list_ok_normalizes (W := Sample.world Sample.accepting)); [reflexivity | right; reflexivity].
  - apply (list_ok_normalizes (W := Sample.world Sample.accepting)); reflexivity.
  - destruct (list_ok_normalizes (W := Sample.world Sample.accepting) reply "nothing")
      as (_ & _ & _ & Hcity & _ & _).
    rewrite (Hcity Sample.api "Kyiv" 50 1 [] _ reply eq_refl eq_refl).
    reflexivity.
  - destruct (list_ok_normalizes (W := Sample.world Sample.accepting) reply "nothing")
      as (_ & _ & _ & _ & Hwh & _).
    rewrite (Hwh Sample.api (Some "city-1") (Some 12) None "Kyiv" 50 1 [] _
               reply eq_refl eq_refl).
    reflexivity.
  - destruct (list_ok_normalizes (W := Sample.world Sample.accepting) reply "nothing")
      as (_ & _ & _ & _ & _ & Hagents).
    rewrite (Hagents Sample.api PersonProperty.SENDER 1 [] _ reply eq_refl
               eq_refl).
    reflexivity.
Defined.

Example city_not_found_text :
  city_not_found "Kyiv"
  = String.concat Str.dquote ["City named "; "Kyiv"; " is not found"].
Proof. reflexivity. Qed.

Example warehouse_not_found_text :
  warehouse_not_found (Some 12) "Kyiv"
  = String.concat Str.dquote ["Warehouse #12 is not found in "; "Kyiv"; ""].
Proof. reflexivity. Qed.

(* ================================================================== *)
(** ** The sender lookup *)















(** An entry whose name field holds something that is not text stops the
    lookup with [AttributeError], wherever it stands. *)
Example find_sender_non_text_field :
  find_sender_by_full_name "john" "doe" ""
    (Sample.senders ++ [VDict [("first_name", VInt 7)]])
  = Raise AttributeError.
Proof. reflexivity. Qed.

(* ================================================================== *)
(** ** Cities *)










Section Cities.

Context {W : World}.



End Cities.



(* ================================================================== *)
(** ** Warehouses *)

Section Warehouses.

Context {W : World}.


Lemma numeric_field_int (v : value) :
  numeric_field v = true -> exists n : Z, int (or_ v (VInt 0)) = Ok n.
Proof.
  unfold or_. destruct v as [|b|n|s|l|d]; simpl; intros H.
  - now exists 0.
  - destruct b; eexists; reflexivity.
  - destruct (Z.eqb n 0); eexists; reflexivity.
  - destruct (String.eqb s "") eqn:E; simpl; [now exists 0|].
    destruct (int_str s); [eexists; reflexivity | discriminate].
  - destruct l; [now exists 0 | discriminate].
  - destruct d; [now exists 0 | discriminate].
Qed.

(** [_map_wh] maps every item whose weights and number are numeric. *)
Lemma map_wh_total (d : dict) :
  numeric_field (get d "PlaceMaxWeightAllowed") = true ->
  numeric_field (get d "TotalMaxWeightAllowed") = true ->
  numeric_field (get d "Number") = true ->
  exists m : dict, _map_wh (VDict d) = Ok (VDict m).
Proof.
  intros Hp Ht Hn.
  destruct (numeric_field_int _ Hp) as [p Ep].
  destruct (numeric_field_int _ Ht) as [q Eq].
  destruct (numeric_field_int _ Hn) as [n En].
  unfold _map_wh, attr_get. cbn [rbind].
  rewrite Ep. cbn [rbind]. rewrite Eq. cbn [rbind]. rewrite En. cbn [rbind].
  eexists. reflexivity.
Qed.



End Warehouses.



(* ================================================================== *)
(** ** The sender aggregation *)

Section Senders.

Context {W : World}.

Lemma sender_record_flat (d : dict) (contacts c0 : dict) :
  first (or_ (get contacts "data") (VList [VDict []])) = Ok (VDict c0) ->
  sender_record (VDict d) contacts = Ok (flat_record d c0).
Proof. intros H. unfold sender_record. rewrite H. reflexivity. Qed.

Lemma sender_record_blank (d : dict) (contacts : dict) :
  truthy (get contacts "data") = false ->
  sender_record (VDict d) contacts = Ok (sender_without_contact d).
Proof.
  intros H. unfold sender_record, or_. rewrite H. reflexivity.
Qed.

Lemma subscript_ref (d : dict) (ref : value) :
  lookup d "Ref" = Some ref ->
  subscript (VDict d) "Ref" = Ok ref /\ get d "Ref" = ref.
Proof.
  intros H. unfold subscript, getitem, get, get_or. now rewrite H.
Qed.

(** One turn of the loop, by the status of the contact call. *)
Lemma sender_loop_step (self : NovaPoshtaAPI) (d : dict) (rest out : list value)
    (t t1 : trace) (ref : value) (contacts : dict) :
  lookup d "Ref" = Some ref ->
  _post self "Counterparty" "getCounterpartyContactPersons"
    (Some [("Ref", ref)]) t = (Ok contacts, t1) ->
  sender_loop self (VDict d :: rest) out t
  = if negb (truthy (get contacts "status")) then (Ok (inl contacts), t1)
    else match sender_record (VDict d) contacts with
         | Ok record => sender_loop self rest (out ++ [record]) t1
         | Raise e => (Raise e, t1)
         end.
Proof.
  intros Href Hpost. destruct (subscript_ref d ref Href) as [Hsub _].
  cbn [sender_loop]. unfold bind at 1. unfold lift at 1. rewrite Hsub.
  unfold bind at 1. rewrite Hpost.
  destruct (negb (truthy (get contacts "status"))); [reflexivity|].
  unfold bind, lift. destruct (sender_record (VDict d) contacts); reflexivity.
Qed.

(** The loop over counterparties whose contact calls all succeed: it runs to
    its end, one record and one request per counterparty. *)
Lemma sender_loop_completes (self : NovaPoshtaAPI) (ds : list dict) :
  Forall (fun d => has_key d "Ref" = true) ds ->
  (forall (t : trace) (ref : value),
     exists (contacts c0 : dict) (t1 : trace),
       _post self "Counterparty" "getCounterpartyContactPersons"
         (Some [("Ref", ref)]) t = (Ok contacts, t1)
       /\ truthy (get contacts "status") = true
       /\ first (or_ (get contacts "data") (VList [VDict []])) = Ok (VDict c0)) ->
  forall (out : list value) (t : trace),
    exists records : list value,
      sender_loop self (map VDict ds) out t
      = (Ok (inr (out ++ records)),
         (t ++ map (contact_request self) ds)%list)
      /\ List.length records = List.length ds.
Proof.
  intros Hrefs Hsrv. induction Hrefs as [|d ds Hd _ IH]; intros out t.
  - exists []. simpl. unfold ret. now rewrite !app_nil_r.
  - unfold has_key in Hd. destruct (lookup d "Ref") as [ref|] eqn:Href;
      [|discriminate].
    destruct (Hsrv t ref) as (contacts & c0 & t1 & Hpost & Hstatus & Hc0).
    assert (Ht1 : t1 = (t ++ [contact_request self d])%list).
    { pose proof (post_trace self "Counterparty"
                    "getCounterpartyContactPersons" (Some [("Ref", ref)]) t) as Hp.
      rewrite Hpost in Hp. simpl in Hp. unfold contact_request.
      now rewrite (proj2 (subscript_ref d ref Href)). }
    simpl map. rewrite (sender_loop_step self d _ out t t1 ref contacts Href Hpost).
    rewrite Hstatus, (sender_record_flat d contacts c0 Hc0). cbn [negb].
    destruct (IH (out ++ [flat_record d c0]) t1) as [records [Hrun Hlen]].
    exists (flat_record d c0 :: records). split.
    + rewrite Hrun, Ht1, <- !app_assoc. reflexivity.
    + simpl. now rewrite Hlen.
Qed.

(** The same loop when no counterparty has a contact person: the records are
    the blank ones. *)
Lemma sender_loop_blank (self : NovaPoshtaAPI) (ds : list dict) :
  Forall (fun d => has_key d "Ref" = true) ds ->
  (forall (t : trace) (ref : value),
     exists (contacts : dict) (t1 : trace),
       _post self "Counterparty" "getCounterpartyContactPersons"
         (Some [("Ref", ref)]) t = (Ok contacts, t1)
       /\ truthy (get contacts "status") = true
       /\ truthy (get contacts "data") = false) ->
  forall (out : list value) (t : trace),
    sender_loop self (map VDict ds) out t
    = (Ok (inr (out ++ map sender_without_contact ds)),
       (t ++ map (contact_request self) ds)%list).
Proof.
  intros Hrefs Hsrv. induction Hrefs as [|d ds Hd _ IH]; intros out t.
  - simpl. unfold ret. now rewrite !app_nil_r.
  - unfold has_key in Hd. destruct (lookup d "Ref") as [ref|] eqn:Href;
      [|discriminate].
    destruct (Hsrv t ref) as (contacts & t1 & Hpost & Hstatus & Hdata).
    assert (Ht1 : t1 = (t ++ [contact_request self d])%list).
    { pose proof (post_trace self "Counterparty"
                    "getCounterpartyContactPersons" (Some [("Ref", ref)]) t) as Hp.
      rewrite Hpost in Hp. simpl in Hp. unfold contact_request.
      now rewrite (proj2 (subscript_ref d ref Href)). }
    simpl map. rewrite (sender_loop_step self d _ out t t1 ref contacts Href Hpost).
    rewrite Hstatus, (sender_record_blank d contacts Hdata). cbn [negb].
    rewrite IH, Ht1, <- !app_assoc. reflexivity.
Qed.

(** C10. In [get_sender_data], a contact-person call that succeeds with an
    empty or absent [data] does not stop the aggregation: the loop goes on
    with one flattened record appended for that sender, whose [contact_ref],
    [first_name], [last_name], [middle_name], [phone] and [email] are all
    [None]; a contact call whose status is false stops it, and its reply is
    what [get_sender_data] returns.  When every contact call succeeds the
    aggregation runs to its end with one record per sender, after one
    contact request per sender. *)
Theorem get_sender_data_contacts (self : NovaPoshtaAPI) :
  (forall (d : dict) (rest out : list value) (t t1 : trace) (ref : value)
          (contacts : dict),
     lookup d "Ref" = Some ref ->
     _post self "Counterparty" "getCounterpartyContactPersons"
       (Some [("Ref", ref)]) t = (Ok contacts, t1) ->
     truthy (get contacts "status") = true ->
     lookup contacts "data" = None \/ get contacts "data" = VList [] ->
     sender_loop self (VDict d :: rest) out t
     = sender_loop self rest (out ++ [sender_without_contact d]) t1)
  /\ (forall (d : dict) (rest out : list value) (t t1 : trace) (ref : value)
             (contacts : dict),
        lookup d "Ref" = Some ref ->
        _post self "Counterparty" "getCounterpartyContactPersons"
          (Some [("Ref", ref)]) t = (Ok contacts, t1) ->
        truthy (get contacts "status") = false ->
        sender_loop self (VDict d :: rest) out t = (Ok (inl contacts), t1))
  /\ (forall (t t0 : trace) (senders : dict) (ds : list dict),
        find_agents_by_property self PersonProperty.SENDER 1 t
        = (Ok senders, t0) ->
        truthy (get senders "status") = true ->
        get_or senders "agents" (VList []) = VList (map VDict ds) ->
        Forall (fun d => has_key d "Ref" = true) ds ->
        (forall (t : trace) (ref : value),
           exists (contacts : dict) (t1 : trace),
             _post self "Counterparty" "getCounterpartyContactPersons"
               (Some [("Ref", ref)]) t = (Ok contacts, t1)
             /\ truthy (get contacts "status") = true
             /\ truthy (get contacts "data") = false) ->
        get_sender_data self t
        = (Ok [("status", VBool true);
               ("status_code", VInt 200);
               ("senders", VList (map sender_without_contact ds));
               ("total", get_or senders "total"
                           (VInt (Z.of_nat (List.length ds))))],
           (t0 ++ map (contact_request self) ds)%list))
  /\ (forall (t t0 : trace) (senders : dict) (ds : list dict),
        find_agents_by_property self PersonProperty.SENDER 1 t
        = (Ok senders, t0) ->
        truthy (get senders "status") = true ->
        get_or senders "agents" (VList []) = VList (map VDict ds) ->
        Forall (fun d => has_key d "Ref" = true) ds ->
        (forall (t : trace) (ref : value),
           exists (contacts c0 : dict) (t1 : trace),
             _post self "Counterparty" "getCounterpartyContactPersons"
               (Some [("Ref", ref)]) t = (Ok contacts, t1)
             /\ truthy (get contacts "status") = true
             /\ first (or_ (get contacts "data") (VList [VDict []]))
                = Ok (VDict c0)) ->
        exists records : list value,
          get_sender_data self t
          = (Ok [("status", VBool true);
                 ("status_code", VInt 200);
                 ("senders", VList records);
                 ("total", get_or senders "total"
                             (VInt (Z.of_nat (List.length records))))],
             (t0 ++ map (contact_request self) ds)%list)
          /\ List.length records = List.length ds)
  /\ (forall (t t0 t1 : trace) (senders : dict) (d : dict) (rest : list value)
             (ref : value) (contacts : dict),
        find_agents_by_property self PersonProperty.SENDER 1 t
        = (Ok senders, t0) ->
        truthy (get senders "status") = true ->
        get_or senders "agents" (VList []) = VList (VDict d :: rest) ->
        lookup d "Ref" = Some ref ->
        _post self "Counterparty" "getCounterpartyContactPersons"
          (Some [("Ref", ref)]) t0 = (Ok contacts, t1) ->
        truthy (get contacts "status") = false ->
        get_sender_data self t = (Ok contacts, t1)).
Proof.
  split; [|split; [|split; [|split]]].
  - intros d rest out t t1 ref contacts Href Hpost Hstatus Hdata.
    rewrite (sender_loop_step self d rest out t t1 ref contacts Href Hpost).
    rewrite Hstatus. cbn [negb].
    rewrite sender_record_blank; [reflexivity|].
    destruct Hdata as [Hd | Hd].
    + unfold get, get_or. now rewrite Hd.
    + now rewrite Hd.
  - intros d rest out t t1 ref contacts Href Hpost Hstatus.
    rewrite (sender_loop_step self d rest out t t1 ref contacts Href Hpost).
    now rewrite Hstatus.
  - intros t t0 senders ds Hagents Hstatus Hlist Hrefs Hsrv.
    unfold get_sender_data. unfold bind at 1. rewrite Hagents, Hstatus.
    cbn [negb]. rewrite Hlist. unfold bind at 1. unfold lift at 1.
    cbn [iter]. unfold bind.
    rewrite (sender_loop_blank self ds Hrefs Hsrv [] t0).
    cbn [app]. unfold ret. now rewrite length_map.
  - intros t t0 senders ds Hagents Hstatus Hlist Hrefs Hsrv.
    destruct (sender_loop_completes self ds Hrefs Hsrv [] t0)
      as [records [Hrun Hlen]].
    exists records. split; [|exact Hlen].
    unfold get_sender_data. unfold bind at 1. rewrite Hagents, Hstatus.
    cbn [negb]. rewrite Hlist. unfold bind at 1. unfold lift at 1.
    cbn [iter]. unfold bind. rewrite Hrun. reflexivity.
  - intros t t0 t1 senders d rest ref contacts Hagents Hstatus Hlist Href
      Hpost Hfail.
    unfold get_sender_data. unfold bind at 1. rewrite Hagents, Hstatus.
    cbn [negb]. rewrite Hlist. unfold bind at 1. unfold lift at 1.
    cbn [iter]. unfold bind.
    rewrite (sender_loop_step self d rest [] t0 t1 ref contacts Href Hpost).
    now rewrite Hfail.
Qed.

End Senders.

(** C10 at a remote side with two senders.  When neither has a contact
    person, both come back with blank contact fields, after three requests;
    when the contact calls are refused, the refusal of the first is the
    result, after two; when each has a contact person, both come back. *)
Lemma get_sender_data_contacts_witness :
  get_sender_data (W := Sample.world (Sample.two_senders Sample.nothing_listed))
    Sample.api []
  = (Ok [("status", VBool true);
         ("status_code", VInt 200);
         ("senders", VList [sender_without_contact Sample.agent1;
                            sender_without_contact Sample.agent2]);
         ("total", VInt 2)],
     [envelope Sample.api "Counterparty" "getCounterparties"
        (Some [("CounterpartyProperty", VStr "Sender"); ("Page", VInt 1)]);
      contact_request Sample.api Sample.agent1;
      contact_request Sample.api Sample.agent2])
  /\ get_sender_data (W := Sample.world (Sample.two_senders Sample.refused))
       Sample.api []
     = (Ok [("status", VBool false);
            ("status_code", VInt 400);
            ("error", VStr "Counterparty is not found");
            ("raw", Sample.refused)],
        [envelope Sample.api "Counterparty" "getCounterparties"
           (Some [("CounterpartyProperty", VStr "Sender"); ("Page", VInt 1)]);
         contact_request Sample.api Sample.agent1])
  /\ (exists records : list value,
        get_sender_data (W := Sample.world (Sample.two_senders Sample.one_contact))
          Sample.api []
        = (Ok [("status", VBool true);
               ("status_code", VInt 200);
               ("senders", VList records);
               ("total", VInt 2)],
           [envelope Sample.api "Counterparty" "getCounterparties"
              (Some [("CounterpartyProperty", VStr "Sender"); ("Page", VInt 1)]);
            contact_request Sample.api Sample.agent1;
            contact_request Sample.api Sample.agent2])
        /\ List.length records = 2%nat).
Proof.
  split; [|split].
  - destruct (get_sender_data_contacts
                (W := Sample.world (Sample.two_senders Sample.nothing_listed))
                Sample.api) as (_ & _ & Hblank & _ & _).
    rewrite (Hblank [] _ _ [Sample.agent1; Sample.agent2] eq_refl eq_refl
               eq_refl).
    + reflexivity.
    + repeat constructor.
    + intros t ref. eexists. eexists.
      split; [reflexivity | split; reflexivity].
  - destruct (get_sender_data_contacts
                (W := Sample.world (Sample.two_senders Sample.refused))
                Sample.api) as (_ & _ & _ & _ & Habort).
    rewrite (Habort [] _ _ _ Sample.agent1 [VDict Sample.agent2] (VStr "a-1") _
               eq_refl eq_refl eq_refl eq_refl eq_refl eq_refl).
    reflexivity.
  - destruct (get_sender_data_contacts
                (W := Sample.world (Sample.two_senders Sample.one_contact))
                Sample.api) as (_ & _ & _ & Hall & _).
    destruct (Hall [] _ _ [Sample.agent1; Sample.agent2] eq_refl eq_refl
                eq_refl) as [records [Hrun Hlen]].
    + repeat constructor.
    + intros t ref. eexists. eexists. eexists.
      split; [reflexivity | split; reflexivity].
    + exists records. split; [rewrite Hrun; reflexivity | exact Hlen].
Defined.

(* ================================================================== *)
(** ** Dictionaries *)

Lemma lookup_set_same (d : dict) (k : string) (v : value) :
  lookup (set d k v) k = Some v.
Proof.
  induction d as [|[k' v'] d IH]; simpl.
  - now rewrite String.eqb_refl.
  - destruct (String.eqb k' k) eqn:E; simpl.
    + now rewrite String.eqb_refl.
    + now rewrite E.
Qed.

Lemma lookup_set_other (d : dict) (k k' : string) (v : value) :
  k <> k' -> lookup (set d k v) k' = lookup d k'.
Proof.
  intros Hk. induction d as [|[k0 v0] d IH]; simpl.
  - apply String.eqb_neq in Hk. now rewrite Hk.
  - destruct (String.eqb k0 k) eqn:E; simpl.
    + apply String.eqb_eq in E as ->. apply String.eqb_neq in Hk. now rewrite Hk.
    + destruct (String.eqb k0 k'); [reflexivity | exact IH].
Qed.

Lemma lookup_absent (d : dict) (k : string) :
  ~ In k (map fst d) -> lookup d k = None.
Proof.
  induction d as [|[k' v'] d IH]; simpl; [reflexivity|].
  intros H. destruct (String.eqb_spec k' k) as [-> | _].
  - exfalso. apply H. now left.
  - apply IH. intros Hin. apply H. now right.
Qed.

Lemma lookup_present (d : dict) (k : string) (v : value) :
  lookup d k = Some v -> In k (map fst d).
Proof.
  induction d as [|[k' v'] d IH]; simpl; [discriminate|].
  destruct (String.eqb_spec k' k) as [-> | _]; [now left|].
  intros H. right. exact (IH H).
Qed.

(** Spreading [extra] over [d]: the keys of [extra] win, the others stay. *)
Lemma lookup_update (d extra : dict) (k : string) :
  NoDup (map fst extra) ->
  lookup (update d extra) k
  = match lookup extra k with
    | Some v => Some v
    | None => lookup d k
    end.
Proof.
  unfold update. intros Hnd. revert d.
  induction extra as [|[k0 v0] extra IH]; intros d; simpl; [reflexivity|].
  inversion Hnd as [|? ? Hnotin Hnd']; subst.
  rewrite (IH Hnd'). destruct (String.eqb_spec k0 k) as [-> | Hne].
  - rewrite (lookup_absent extra k Hnotin). apply lookup_set_same.
  - destruct (lookup extra k); [reflexivity|].
    now apply lookup_set_other.
Qed.

(* ================================================================== *)
(** ** The reply of the remote side *)

Section Replies.

Context {W : World}.

Lemma join_strings (sep : string) (l : list string) :
  Py.join sep (VList (map VStr l)) = Ok (Str.join sep l).
Proof.
  unfold Py.join. cbn [iter rbind].
  assert (H : map_result (fun x => match x with
                                   | VStr s => Ok s
                                   | _ => Raise TypeError
                                   end) (map VStr l) = Ok l).
  { induction l as [|x l IH]; [reflexivity|]. simpl. now rewrite IH. }
  now rewrite H.
Qed.

Lemma failure_text_not_empty (es cs : list string) : failure_text es cs <> "".
Proof.
  unfold failure_text.
  destruct (String.eqb_spec (Str.join "; " es) "") as [_ | H1]; simpl;
    [|exact H1].
  destruct (String.eqb_spec (Str.join "; " cs) "") as [_ | H2]; simpl;
    [discriminate | exact H2].
Qed.

(** Lines 118-122 on a body that reports a failure. *)
Lemma classify_body_failure (d : dict) (es cs : list string) :
  truthy (get_or d "success" (VBool false)) = false ->
  or_ (get d "errors") (VList []) = VList (map VStr es) ->
  (Str.join "; " es = "" ->
   or_ (get d "messageCodes") (VList []) = VList (map VStr cs)) ->
  classify_body (VDict d)
  = Ok [("status", VBool false);
        ("status_code",
         VInt (if Str.contains "API key" (failure_text es cs)
                  && Str.contains "invalid" (Str.lower (failure_text es cs))
               then 401 else 400));
        ("error", VStr (failure_text es cs));
        ("raw", VDict d)].
Proof.
  intros Hs He Hc. unfold classify_body, attr_get_or, attr_get.
  cbn [rbind]. rewrite Hs. cbn [negb]. rewrite He, join_strings. cbn [rbind].
  unfold failure_text.
  destruct (String.eqb_spec (Str.join "; " es) "") as [E | _]; cbn [negb].
  - rewrite (Hc E), join_strings. cbn [rbind]. reflexivity.
  - reflexivity.
Qed.

(** Line 124 on a body that reports success. *)
Lemma classify_body_success (d : dict) :
  truthy (get_or d "success" (VBool false)) = true ->
  classify_body (VDict d)
  = Ok (update [("status", VBool true); ("status_code", VInt 200)] d).
Proof.
  intros Hs. unfold classify_body, attr_get_or. cbn [rbind].
  now rewrite Hs.
Qed.

(** X1. When the remote side answers with a mapping whose [success] is
    false or missing, and its [errors] and [messageCodes] are lists of
    strings (or absent), [_post] returns, as a value,
    [{status: False, status_code, error, raw}]: [raw] is the body as
    received; [error] is the joined errors, else the joined message codes,
    else "API error", and is never empty; [status_code] is 401 exactly when
    the text contains "API key" and, in lower case, "invalid", and 400
    otherwise. *)
Theorem post_logical_failure (self : NovaPoshtaAPI) (model method : string)
    (props : option dict) (t : trace) (d : dict) (es cs : list string) :
  server t (envelope self model method props) = Body (VDict d) ->
  truthy (get_or d "success" (VBool false)) = false ->
  or_ (get d "errors") (VList []) = VList (map VStr es) ->
  (Str.join "; " es = "" ->
   or_ (get d "messageCodes") (VList []) = VList (map VStr cs)) ->
  exists (msg : string) (code : Z),
    _post self model method props t
    = (Ok [("status", VBool false); ("status_code", VInt code);
           ("error", VStr msg); ("raw", VDict d)],
       (t ++ [envelope self model method props])%list)
    /\ msg <> ""
    /\ (Str.join "; " es <> "" -> msg = Str.join "; " es)
    /\ (Str.join "; " es = "" -> Str.join "; " cs <> "" ->
        msg = Str.join "; " cs)
    /\ (Str.join "; " es = "" -> Str.join "; " cs = "" -> msg = "API error")
    /\ (code = 401 \/ code = 400)
    /\ (code = 401 <->
        occurs_in "API key" msg /\ occurs_in "invalid" (Str.lower msg)).
Proof.
  intros Hsrv Hs He Hc.
  exists (failure_text es cs).
  exists (if Str.contains "API key" (failure_text es cs)
             && Str.contains "invalid" (Str.lower (failure_text es cs))
          then 401 else 400).
  split.
  { unfold _post. rewrite Hsrv, (classify_body_failure d es cs Hs He Hc).
    reflexivity. }
  split; [apply failure_text_not_empty|].
  split.
  { intros H. unfold failure_text.
    destruct (String.eqb_spec (Str.join "; " es) ""); [contradiction | reflexivity]. }
  split.
  { intros H1 H2. unfold failure_text. rewrite H1. simpl.
    destruct (String.eqb_spec (Str.join "; " cs) ""); [contradiction | reflexivity]. }
  split.
  { intros H1 H2. unfold failure_text. now rewrite H1, H2. }
  pose proof (contains_spec "API key" (failure_text es cs)) as Ha.
  pose proof (contains_spec "invalid" (Str.lower (failure_text es cs))) as Hb.
  destruct (Str.contains "API key" (failure_text es cs));
    destruct (Str.contains "invalid" (Str.lower (failure_text es cs)));
    simpl.
  - split; [now left|]. split; [intros _|reflexivity].
    split; [now apply Ha | now apply Hb].
  - split; [now right|]. split; [discriminate|].
    intros [_ H]. apply Hb in H. discriminate.
  - split; [now right|]. split; [discriminate|].
    intros [H _]. apply Ha in H. discriminate.
  - split; [now right|]. split; [discriminate|].
    intros [H _]. apply Ha in H. discriminate.
Qed.

(** X2. When the remote side answers with a mapping whose [success] is
    true, [_post] returns the fields of the body under [status: True] and
    [status_code: 200]: every key of the body is in the result with the
    value the body gives it, also [status] and [status_code] when the body
    has them, and no other key is added. *)
Theorem post_success_fields (self : NovaPoshtaAPI) (model method : string)
    (props : option dict) (t : trace) (d : dict) :
  server t (envelope self model method props) = Body (VDict d) ->
  truthy (get_or d "success" (VBool false)) = true ->
  NoDup (map fst d) ->
  exists r : dict,
    _post self model method props t
    = (Ok r, (t ++ [envelope self model method props])%list)
    /\ (forall (k : string) (v : value), lookup d k = Some v -> lookup r k = Some v)
    /\ (lookup d "status" = None -> lookup r "status" = Some (VBool true))
    /\ (lookup d "status_code" = None -> lookup r "status_code" = Some (VInt 200))
    /\ (forall k : string,
          lookup d k = None -> k <> "status" -> k <> "status_code" ->
          lookup r k = None).
Proof.
  intros Hsrv Hs Hnd.
  exists (update [("status", VBool true); ("status_code", VInt 200)] d).
  split.
  { unfold _post. now rewrite Hsrv, (classify_body_success d Hs). }
  split; [|split; [|split]].
  - intros k v Hk. now rewrite (lookup_update _ d k Hnd), Hk.
  - intros Hk. now rewrite (lookup_update _ d _ Hnd), Hk.
  - intros Hk. now rewrite (lookup_update _ d _ Hnd), Hk.
  - intros k Hk H1 H2. rewrite (lookup_update _ d k Hnd), Hk.
    cbn [lookup].
    destruct (String.eqb_spec "status" k) as [E | _]; [now subst|].
    destruct (String.eqb_spec "status_code" k) as [E | _]; [now subst|].
    reflexivity.
Qed.

(** X4. [_list_ok] is idempotent: normalising what it returned, with any
    message, changes nothing. *)
Theorem list_ok_idempotent (resp : dict) (msg msg' : string) :
  _list_ok (_list_ok resp msg) msg' = _list_ok resp msg.
Proof.
  destruct (truthy (get resp "status")) eqn:Hs.
  - destruct (truthy (get resp "data")) eqn:Hd.
    + rewrite (list_ok_data resp msg Hs Hd).
      rewrite list_ok_data; [reflexivity | reflexivity | exact Hd].
    + rewrite (list_ok_empty resp msg Hs Hd). now apply list_ok_failed.
  - rewrite (list_ok_failed resp msg Hs). now apply list_ok_failed.
Qed.

End Replies.

(* ================================================================== *)
(** ** The other operations *)

Lemma lookup_update_absent (d extra : dict) (k : string) :
  lookup extra k = None -> lookup (update d extra) k = lookup d k.
Proof.
  unfold update. revert d.
  induction extra as [|[k0 v0] extra IH]; intros d; simpl; [reflexivity|].
  destruct (String.eqb_spec k0 k) as [-> | Hne]; [discriminate|].
  intros H. rewrite (IH _ H). now apply lookup_set_other.
Qed.

Section OtherOperations.

Context {W : World}.


(** X3. [is_valid_key] issues one request, [ScanSheet.getScanSheetList]
    without properties, and answers [False] when the transport fails or the
    remote side reports a failure, and [True] when the remote side reports
    success in a body that has no [status] or [status_code] of its own. *)
Theorem is_valid_key_verdict (self : NovaPoshtaAPI) (t : trace) :
  (forall e : HTTPError,
     server t (envelope self "ScanSheet" "getScanSheetList" None)
     = RaisesHTTPError e ->
     is_valid_key self t
     = (Ok false, (t ++ [envelope self "ScanSheet" "getScanSheetList" None])%list))
  /\ (forall text : string,
        server t (envelope self "ScanSheet" "getScanSheetList" None)
        = RaisesRequestException text ->
        is_valid_key self t
        = (Ok false,
           (t ++ [envelope self "ScanSheet" "getScanSheetList" None])%list))
  /\ (forall (d : dict) (es cs : list string),
        server t (envelope self "ScanSheet" "getScanSheetList" None)
        = Body (VDict d) ->
        truthy (get_or d "success" (VBool false)) = false ->
        or_ (get d "errors") (VList []) = VList (map VStr es) ->
        (Str.join "; " es = "" ->
         or_ (get d "messageCodes") (VList []) = VList (map VStr cs)) ->
        is_valid_key self t
        = (Ok false,
           (t ++ [envelope self "ScanSheet" "getScanSheetList" None])%list))
  /\ (forall d : dict,
        server t (envelope self "ScanSheet" "getScanSheetList" None)
        = Body (VDict d) ->
        truthy (get_or d "success" (VBool false)) = true ->
        lookup d "status" = None -> lookup d "status_code" = None ->
        is_valid_key self t
        = (Ok true,
           (t ++ [envelope self "ScanSheet" "getScanSheetList" None])%list)).
Proof.
  unfold is_valid_key, bind, _post. split; [|split; [|split]].
  - intros e H. now rewrite H.
  - intros text H. now rewrite H.
  - intros d es cs H Hs He Hc.
    now rewrite H, (classify_body_failure d es cs Hs He Hc).
  - intros d H Hs H1 H2. rewrite H, (classify_body_success d Hs).
    unfold ret, get, get_or.
    rewrite (lookup_update_absent _ d "status" H1).
    rewrite (lookup_update_absent _ d "status_code" H2).
    reflexivity.
Qed.


(** X8. [waybill_status] asks for the tracking number of the shipment in
    one request.  A reply whose status is false is returned as it is.  A
    successful reply without data is not an error: the document comes back
    with [status_code] 0 and every other field [None].  Otherwise the
    document is read from the first record alone, its [StatusCode] turned
    into an integer. *)
Theorem waybill_status_result (self : NovaPoshtaAPI) (nova_poshta : NovaPoshta.t)
    (t t' : trace) (res : dict) :
  _post self "TrackingDocument" "getStatusDocuments"
    (Some [("Documents",
            VList [VDict [("DocumentNumber",
                           VStr (DeliveryInfo.ttn
                                   (NovaPoshta.delivery nova_poshta)))]])]) t
  = (Ok res, t') ->
  (truthy (get res "status") = false ->
   waybill_status self nova_poshta t = (Ok res, t'))
  /\ (truthy (get res "status") = true ->
      truthy (get res "data") = false ->
      waybill_status self nova_poshta t
      = (Ok [("status", VBool true);
             ("status_code", get_or res "status_code" (VInt 200));
             ("document", VDict [("ref", VNone);
                                 ("ttn", VNone);
                                 ("status_code", VInt 0);
                                 ("status_description", VNone);
                                 ("last_scan_date", VNone);
                                 ("last_tracking_date", VNone)])], t'))
  /\ (forall (d : dict) (rest : list value) (code : Z),
        truthy (get res "status") = true ->
        get res "data" = VList (VDict d :: rest) ->
        int (or_ (get d "StatusCode") (VInt 0)) = Ok code ->
        waybill_status self nova_poshta t
        = (Ok [("status", VBool true);
               ("status_code", get_or res "status_code" (VInt 200));
               ("document", VDict [("ref", get d "RefEW");
                                   ("ttn", get d "Number");
                                   ("status_code", VInt code);
                                   ("status_description", get d "Status");
                                   ("last_scan_date", get d "DateScan");
                                   ("last_tracking_date",
                                    get d "TrackingUpdateDate")])], t')).
Proof.
  intros Hpost. unfold waybill_status, bind. rewrite Hpost.
  split; [|split].
  - intros Hs. now rewrite Hs.
  - intros Hs Hd. rewrite Hs. cbn [negb]. unfold lift, or_. rewrite Hd.
    reflexivity.
  - intros d rest code Hs Hd Hcode. rewrite Hs. cbn [negb].
    unfold lift, or_ at 1. rewrite Hd. cbn [truthy first rbind attr_get].
    rewrite Hcode. reflexivity.
Qed.

(** X17. On a successful reply with items, [find_agents_by_property]
    returns the items as the remote side gave them, not mapped, and as
    [total] the [totalCount] of the paging info, whatever it is, or the
    number of items when the info has none. *)
Theorem find_agents_by_property_result (self : NovaPoshtaAPI)
    (property : PersonProperty.t) (page : Z) (t t' : trace) (res : dict)
    (x : value) (l : list value) (info : dict) :
  _post self "Counterparty" "getCounterparties"
    (Some [("CounterpartyProperty", VStr (PersonProperty.value property));
           ("Page", VInt page)]) t = (Ok res, t') ->
  truthy (get res "status") = true ->
  get res "data" = VList (x :: l) ->
  get_or res "info" (VDict []) = VDict info ->
  exists total : value,
    find_agents_by_property self property page t
    = (Ok [("status", VBool true);
           ("status_code", VInt 200);
           ("agents", VList (x :: l));
           ("total", total)], t')
    /\ (forall v : value, lookup info "totalCount" = Some v -> total = v)
    /\ (lookup info "totalCount" = None ->
        total = VInt (Z.of_nat (List.length (x :: l)))).
Proof.
  intros Hpost Hs Hd Hinfo.
  exists (get_or info "totalCount" (VInt (Z.of_nat (List.length (x :: l))))).
  split.
  - unfold find_agents_by_property, bind. rewrite Hpost.
    rewrite (list_ok_data res (agents_not_found property) Hs)
      by now rewrite Hd.
    rewrite Hd, Hinfo. reflexivity.
  - unfold get_or. split.
    + intros v Hv. now rewrite Hv.
    + intros Hv. now rewrite Hv.
Qed.

(** X7. [get_sender_data] starts with one request for the sender
    counterparties, page 1.  When that reply has a false status it is
    returned as it is, and when it succeeds with no counterparty the result
    is the 404 failure of the list, not an empty list of senders; in both
    cases no request for contact persons follows. *)
Theorem get_sender_data_without_senders (self : NovaPoshtaAPI)
    (t t0 : trace) (res : dict) :
  _post self "Counterparty" "getCounterparties"
    (Some [("CounterpartyProperty", VStr "Sender"); ("Page", VInt 1)]) t
  = (Ok res, t0) ->
  t0 = (t ++ [envelope self "Counterparty" "getCounterparties"
                (Some [("CounterpartyProperty", VStr "Sender");
                       ("Page", VInt 1)])])%list
  /\ (truthy (get res "status") = false ->
      get_sender_data self t = (Ok res, t0))
  /\ (truthy (get res "status") = true ->
      truthy (get res "data") = false ->
      get_sender_data self t
      = (Ok [("status", VBool false); ("status_code", VInt 404);
             ("error", VStr (agents_not_found PersonProperty.SENDER))], t0)).
Proof.
  intros Hpost. split; [|split].
  - pose proof (post_trace self "Counterparty" "getCounterparties"
                  (Some [("CounterpartyProperty", VStr "Sender");
                         ("Page", VInt 1)]) t) as H.
    now rewrite Hpost in H.
  - intros Hs. unfold get_sender_data, find_agents_by_property, bind.
    change (PersonProperty.value PersonProperty.SENDER) with "Sender".
    rewrite Hpost, (list_ok_failed res _ Hs), Hs. cbn [negb].
    unfold ret. now rewrite Hs.
  - intros Hs Hd. unfold get_sender_data, find_agents_by_property, bind.
    change (PersonProperty.value PersonProperty.SENDER) with "Sender".
    rewrite Hpost, (list_ok_empty res _ Hs Hd). reflexivity.
Qed.

End OtherOperations.

(* ================================================================== *)
(** ** More on waybills *)

(** Nothing is below a NaN, and a NaN is below nothing. *)
Lemma ltb_nan_r (x : float) : PrimFloat.ltb x PrimFloat.nan = false.
Proof.
  rewrite ltb_spec. change (Prim2SF PrimFloat.nan) with S754_nan.
  unfold SFltb. destruct (Prim2SF x) as [s | s | | s m e]; reflexivity.
Qed.

Lemma ltb_nan_l (x : float) : PrimFloat.ltb PrimFloat.nan x = false.
Proof.
  rewrite ltb_spec. change (Prim2SF PrimFloat.nan) with S754_nan. reflexivity.
Qed.

Section MoreWaybills.

Context {W : World}.

(** X15. [create_waybill] reaches the network exactly when its three local
    checks pass: then it issues one request, the save of the property map it
    built, and returns what [_post] returns; otherwise it issues none and
    returns a failure with status code 400. *)
Theorem create_waybill_network (self : NovaPoshtaAPI)
    (sender : NovaPoshtaSender.t) (receiver : NovaPoshtaReceiver.t)
    (declared_price : string) (delivery_date : datetime)
    (specified_weight : float) (payment_method payer_type : string)
    (cargo_type : CargoType.t) (comment : string) (goods_count : Z)
    (with_backward_delivery : bool) (backward_amount postpaid_amount : float)
    (t : trace) :
  exists props : dict,
    create_waybill_props sender receiver declared_price delivery_date
      specified_weight payment_method payer_type cargo_type comment goods_count
      with_backward_delivery backward_amount postpaid_amount = Ok props
    /\ (weights_accepted sender receiver specified_weight = true ->
        create_waybill self sender receiver declared_price delivery_date
          specified_weight payment_method payer_type cargo_type comment
          goods_count with_backward_delivery backward_amount postpaid_amount t
        = _post self "InternetDocument" "save" (Some props) t
        /\ snd (create_waybill self sender receiver declared_price
                  delivery_date specified_weight payment_method payer_type
                  cargo_type comment goods_count with_backward_delivery
                  backward_amount postpaid_amount t)
           = (t ++ [envelope self "InternetDocument" "save" (Some props)])%list)
    /\ (weights_accepted sender receiver specified_weight = false ->
        exists text : string,
          create_waybill self sender receiver declared_price delivery_date
            specified_weight payment_method payer_type cargo_type comment
            goods_count with_backward_delivery backward_amount
            postpaid_amount t
          = (Ok [("status", VBool false); ("status_code", VInt 400);
                 ("error", VStr text)], t)).
Proof.
  destruct (create_waybill_props_total sender receiver declared_price
              delivery_date specified_weight payment_method payer_type
              cargo_type comment goods_count with_backward_delivery
              backward_amount postpaid_amount) as [props Hp].
  exists props. split; [exact Hp|].
  unfold weights_accepted, create_waybill, float_is_zero. rewrite Hp.
  destruct (PrimFloat.eqb (NovaPoshtaSender.max_weight_allowed sender)
              PrimFloat.zero);
    destruct (PrimFloat.eqb (NovaPoshtaReceiver.max_weight_allowed receiver)
                PrimFloat.zero);
    destruct (PrimFloat.ltb (NovaPoshtaSender.max_weight_allowed sender)
                specified_weight);
    destruct (PrimFloat.ltb (NovaPoshtaReceiver.max_weight_allowed receiver)
                specified_weight);
    cbn [negb andb orb]; split; intros H; try discriminate H;
    try (eexists; reflexivity).
  split; [reflexivity|].
  change (snd (_post self "InternetDocument" "save" (Some props) t)
          = (t ++ [envelope self "InternetDocument" "save" (Some props)])%list).
  apply post_trace.
Qed.

(** X18. A weight that is not a number is never refused by the local
    checks of [create_waybill]: with two non-zero maxima the waybill is
    posted. *)
Theorem create_waybill_nan_weight (self : NovaPoshtaAPI)
    (sender : NovaPoshtaSender.t) (receiver : NovaPoshtaReceiver.t)
    (declared_price : string) (delivery_date : datetime)
    (payment_method payer_type : string) (cargo_type : CargoType.t)
    (comment : string) (goods_count : Z) (with_backward_delivery : bool)
    (backward_amount postpaid_amount : float) (t : trace) :
  PrimFloat.eqb (NovaPoshtaSender.max_weight_allowed sender) PrimFloat.zero
  = false ->
  PrimFloat.eqb (NovaPoshtaReceiver.max_weight_allowed receiver) PrimFloat.zero
  = false ->
  exists props : dict,
    snd (create_waybill self sender receiver declared_price delivery_date
           PrimFloat.nan payment_method payer_type cargo_type comment
           goods_count with_backward_delivery backward_amount postpaid_amount t)
    = (t ++ [envelope self "InternetDocument" "save" (Some props)])%list.
Proof.
  intros Hs Hr.
  destruct (create_waybill_props_total sender receiver declared_price
              delivery_date PrimFloat.nan payment_method payer_type
              cargo_type comment goods_count with_backward_delivery
              backward_amount postpaid_amount) as [props Hp].
  exists props. unfold create_waybill, float_is_zero.
  rewrite Hs, Hr, !ltb_nan_r, Hp. cbn [orb].
  change (snd (_post self "InternetDocument" "save" (Some props) t)
          = (t ++ [envelope self "InternetDocument" "save" (Some props)])%list).
  apply post_trace.
Qed.

(** X16. The cargo type and the seat descriptor of a waybill come from the
    addresses.  [create_waybill] sends "Parcel" and the locker seat when an
    address names a parcel locker, and the cargo type of the caller with
    [OptionsSeat: None] otherwise.  [update_waybill] sends "Parcel" or
    "Cargo" in the same way, never a seat descriptor: its map has no
    [OptionsSeat] and holds [VolumeGeneral: None]. *)
Theorem waybill_cargo_and_seat (sender : NovaPoshtaSender.t)
    (receiver : NovaPoshtaReceiver.t) (declared_price : string)
    (delivery_date : datetime) (specified_weight : float)
    (payment_method payer_type : string) (cargo_type : CargoType.t)
    (comment : string) (goods_count : Z) (with_backward_delivery : bool)
    (backward_amount postpaid_amount : float) (nova_poshta : NovaPoshta.t) :
  (exists props : dict,
     create_waybill_props sender receiver declared_price delivery_date
       specified_weight payment_method payer_type cargo_type comment
       goods_count with_backward_delivery backward_amount postpaid_amount
     = Ok props
     /\ lookup props "CargoType"
        = Some (VStr (if post_machine sender receiver then "Parcel"
                      else CargoType.value cargo_type))
     /\ lookup props "OptionsSeat"
        = Some (if post_machine sender receiver
                then locker_seat (str_float specified_weight) else VNone))
  /\ (exists props : dict,
        update_waybill_props nova_poshta goods_count = Ok props
        /\ lookup props "CargoType"
           = Some (VStr (if post_machine (NovaPoshta.sender nova_poshta)
                              (NovaPoshta.receiver nova_poshta)
                         then "Parcel" else "Cargo"))
        /\ has_key props "OptionsSeat" = false
        /\ lookup props "VolumeGeneral" = Some VNone).
Proof.
  split.
  - unfold create_waybill_props, set_additional_parameters, post_machine.
    change (WarehouseType.value WarehouseType.POST_MACHINE) with "Postomat".
    destruct (Str.contains "Postomat" (NovaPoshtaSender.address sender)
              || Str.contains "Postomat" (NovaPoshtaReceiver.address receiver));
      destruct (String.eqb payment_method
                  (PaymentMethod.value PaymentMethod.CASH));
      eexists; (split; [reflexivity|]); split; reflexivity.
  - unfold update_waybill_props, set_additional_parameters, post_machine.
    change (WarehouseType.value WarehouseType.POST_MACHINE) with "Postomat".
    destruct (Str.contains "Postomat"
                (NovaPoshtaSender.address (NovaPoshta.sender nova_poshta))
              || Str.contains "Postomat"
                   (NovaPoshtaReceiver.address (NovaPoshta.receiver nova_poshta)));
      eexists; (split; [reflexivity|]); repeat split.
Qed.

End MoreWaybills.

(* ================================================================== *)
(** ** More on warehouses and senders *)

Section MoreWarehouses.

Context {W : World}.

(** X5. The request of [find_warehouse_in_city] always carries [Limit] and
    [Page]; [CityRef] and [FindByString] only when the argument is a
    non-empty text; [WarehouseId] whenever a number is given, also 0; and no
    other key. *)
Theorem warehouse_props_keys (self : NovaPoshtaAPI) (city_ref : option string)
    (warehouse_number : option Z) (warehouse_string : option string)
    (city : string) (limit page : Z) (t : trace) :
  snd (find_warehouse_in_city self city_ref warehouse_number warehouse_string
         city limit page t)
  = (t ++ [envelope self "AddressGeneral" "getWarehouses"
             (Some (warehouse_props city_ref warehouse_number warehouse_string
                      limit page))])%list
  /\ lookup (warehouse_props city_ref warehouse_number warehouse_string
               limit page) "Limit" = Some (VInt limit)
  /\ lookup (warehouse_props city_ref warehouse_number warehouse_string
               limit page) "Page" = Some (VInt page)
  /\ lookup (warehouse_props city_ref warehouse_number warehouse_string
               limit page) "CityRef"
     = match city_ref with
       | Some r => if String.eqb r "" then None else Some (VStr r)
       | None => None
       end
  /\ lookup (warehouse_props city_ref warehouse_number warehouse_string
               limit page) "WarehouseId"
     = match warehouse_number with
       | Some n => Some (VInt n)
       | None => None
       end
  /\ lookup (warehouse_props city_ref warehouse_number warehouse_string
               limit page) "FindByString"
     = match warehouse_string with
       | Some w => if String.eqb w "" then None else Some (VStr w)
       | None => None
       end
  /\ incl (map fst (warehouse_props city_ref warehouse_number warehouse_string
                      limit page))
       ["Limit"; "Page"; "CityRef"; "WarehouseId"; "FindByString"].
Proof.
  split.
  { unfold find_warehouse_in_city, bind.
    pose proof (post_trace self "AddressGeneral" "getWarehouses"
                  (Some (warehouse_props city_ref warehouse_number
                           warehouse_string limit page)) t) as Hp.
    destruct (_post self "AddressGeneral" "getWarehouses"
                (Some (warehouse_props city_ref warehouse_number
                         warehouse_string limit page)) t) as [[res | e] t'];
      simpl in Hp; subst t'; [|reflexivity].
    destruct (negb (truthy (get (_list_ok res
                                   (warehouse_not_found warehouse_number city))
                              "status"))); reflexivity. }
  unfold warehouse_props.
  destruct city_ref as [r|]; [destruct (String.eqb r "")|];
    destruct warehouse_number as [n|];
    (destruct warehouse_string as [w|]; [destruct (String.eqb w "")|]);
    cbn [negb]; repeat split;
    try reflexivity;
    (intros k Hk; simpl in Hk; simpl; tauto).
Qed.

(** X6. [_map_wh] reads the two weights and the number as integers, a
    missing or empty one as 0.  [max_weight_allowed] is the total maximum
    when that is not 0 and the maximum per place otherwise, so it is 0 only
    when both are; both are also given as they were read. *)
Theorem map_wh_max_weight (d : dict) (place total number : Z) :
  int (or_ (get d "PlaceMaxWeightAllowed") (VInt 0)) = Ok place ->
  int (or_ (get d "TotalMaxWeightAllowed") (VInt 0)) = Ok total ->
  int (or_ (get d "Number") (VInt 0)) = Ok number ->
  exists (m : dict) (w : Z),
    _map_wh (VDict d) = Ok (VDict m)
    /\ lookup m "max_weight_allowed" = Some (VInt w)
    /\ lookup m "max_weight_allowed_place" = Some (VInt place)
    /\ lookup m "max_weight_allowed_total" = Some (VInt total)
    /\ lookup m "number" = Some (VInt number)
    /\ (total <> 0 -> w = total)
    /\ (total = 0 -> w = place)
    /\ (w = 0 <-> place = 0 /\ total = 0).
Proof.
  intros Hp Ht Hn. unfold _map_wh, attr_get. cbn [rbind].
  rewrite Hp. cbn [rbind]. rewrite Ht. cbn [rbind]. rewrite Hn. cbn [rbind].
  eexists. exists (if Z.eqb total 0 then place else total).
  split; [reflexivity|].
  do 4 (split; [reflexivity|]).
  destruct (Z.eqb_spec total 0) as [E | E].
  - split; [intros H; contradiction|]. split; [intros _; reflexivity|].
    split; [intros Hw; now split | intros [Hp0 _]; exact Hp0].
  - split; [intros _; reflexivity|]. split; [intros H; contradiction|].
    split; [intros Hw; contradiction | intros [_ Ht0]; contradiction].
Qed.



End MoreWarehouses.

(* ================================================================== *)
(** ** Documents *)

Lemma undigit_digit (s : Base64.sextet) :
  Base64.undigit (Base64.digit s) = Some s.
Proof.
  destruct s as [[[[[b5 b4] b3] b2] b1] b0].
  destruct b5, b4, b3, b2, b1, b0; reflexivity.
Qed.

Lemma digit_not_pad (s : Base64.sextet) :
  Ascii.eqb (Base64.digit s) Base64.pad = false.
Proof.
  destruct s as [[[[[b5 b4] b3] b2] b1] b0].
  destruct b5, b4, b3, b2, b1, b0; reflexivity.
Qed.

(** Induction on a list three elements at a time. *)
Lemma list_ind_by_three {A : Type} (P : list A -> Prop) :
  P [] -> (forall a, P [a]) -> (forall a b, P [a; b]) ->
  (forall a b c l, P l -> P (a :: b :: c :: l)) ->
  forall l, P l.
Proof.
  intros H0 H1 H2 H3 l.
  assert (H : P l /\ (forall a, P (a :: l)) /\ (forall a b, P (a :: b :: l))).
  { induction l as [|x l [IH0 [IH1 IH2]]].
    - auto.
    - split; [apply IH1|]. split; [intros a; apply IH2|].
      intros a b. apply H3. exact IH0. }
  exact (proj1 H).
Qed.

(** The base64 text of some bytes decodes to these bytes. *)
Lemma base64_decode_encode (bs : list ascii) :
  Base64.decode (Base64.encode bs) = Some bs.
Proof.
  induction bs as [| a | a b | a b c rest IH] using list_ind_by_three.
  - reflexivity.
  - destruct a as [a0 a1 a2 a3 a4 a5 a6 a7].
    cbn [Base64.encode Base64.decode].
    rewrite !undigit_digit. reflexivity.
  - destruct a as [a0 a1 a2 a3 a4 a5 a6 a7].
    destruct b as [b0 b1 b2 b3 b4 b5 b6 b7].
    cbn [Base64.encode Base64.decode].
    rewrite !undigit_digit, digit_not_pad. reflexivity.
  - destruct a as [a0 a1 a2 a3 a4 a5 a6 a7].
    destruct b as [b0 b1 b2 b3 b4 b5 b6 b7].
    destruct c as [c0 c1 c2 c3 c4 c5 c6 c7].
    cbn [Base64.encode Base64.decode].
    rewrite !undigit_digit, !digit_not_pad, IH. reflexivity.
Qed.

Lemma strip_prefix_app (p s : string) : strip_prefix p (p ++ s) = Some s.
Proof.
  induction p as [|a p IH]; simpl; [reflexivity|].
  now rewrite Ascii.eqb_refl.
Qed.

Lemma strip_prefix_none (p s : string) :
  Str.startswith p s = false -> strip_prefix p s = None.
Proof.
  revert s. induction p as [|a p IH]; intros s; simpl; [discriminate|].
  destruct s as [|b s]; [reflexivity|].
  destruct (Ascii.eqb a b); simpl; [apply IH | reflexivity].
Qed.

Lemma until_quote_free (s : string) : free_of quote_char (until_quote s) = true.
Proof.
  induction s as [|c s IH]; simpl; [reflexivity|].
  destruct (Ascii.eqb c quote_char) eqn:E; simpl; [reflexivity|].
  now rewrite E, IH.
Qed.

Lemma until_quote_stop (n rest : string) :
  free_of quote_char n = true ->
  until_quote (n ++ String quote_char rest) = n.
Proof.
  induction n as [|c n IH]; simpl.
  - intros _. reflexivity.
  - intros H. apply andb_true_iff in H as [Hc Hn].
    apply negb_true_iff in Hc. rewrite Hc. now rewrite (IH Hn).
Qed.

Lemma until_quote_all (n : string) :
  free_of quote_char n = true -> until_quote n = n.
Proof.
  induction n as [|c n IH]; simpl; [reflexivity|].
  intros H. apply andb_true_iff in H as [Hc Hn].
  apply negb_true_iff in Hc. rewrite Hc. now rewrite (IH Hn).
Qed.

(** The search passes over text that has no letter f. *)
Lemma search_filename_skip (p s : string) :
  free_of "f" p = true -> search_filename (p ++ s) = search_filename s.
Proof.
  induction p as [|c p IH]; [reflexivity|].
  intros H. simpl in H. apply andb_true_iff in H as [Hc Hp].
  apply negb_true_iff in Hc.
  change ((String c p ++ s)%string) with (String c (p ++ s)).
  assert (Hm : match_filename (String c (p ++ s)) = None).
  { unfold match_filename. cbn [strip_prefix].
    rewrite Ascii.eqb_sym, Hc. reflexivity. }
  cbn [search_filename]. rewrite Hm. exact (IH Hp).
Qed.

(** A name in quotes after [filename=] is the match. *)
Lemma match_filename_quoted (n rest : string) :
  n <> EmptyString -> free_of quote_char n = true ->
  match_filename ("filename=" ++ String quote_char (n ++ String quote_char rest))
  = Some n.
Proof.
  intros Hne Hfree. unfold match_filename. rewrite strip_prefix_app.
  change (Ascii.eqb quote_char quote_char) with true. cbv iota.
  rewrite (until_quote_stop n rest Hfree).
  destruct n; [contradiction | reflexivity].
Qed.

(** A name without quotes after [filename=] runs to the end of the header
    or to the next quote. *)
Lemma match_filename_bare (n : string) (tail : string) :
  n <> EmptyString -> free_of quote_char n = true ->
  tail = EmptyString \/ (exists rest, tail = String quote_char rest) ->
  match_filename ("filename=" ++ n ++ tail) = Some n.
Proof.
  intros Hne Hfree Htail. unfold match_filename. rewrite strip_prefix_app.
  assert (Hrun : until_quote (n ++ tail) = n).
  { destruct Htail as [-> | [rest ->]].
    - replace (n ++ "")%string with n.
      + now apply until_quote_all.
      + clear. induction n; simpl; congruence.
    - now apply until_quote_stop. }
  destruct n as [|c n]; [contradiction|].
  change ((String c n ++ tail)%string) with (String c (n ++ tail)) in *.
  simpl in Hfree. apply andb_true_iff in Hfree as [Hc _].
  apply negb_true_iff in Hc. rewrite Hc, Hrun. reflexivity.
Qed.

Lemma search_filename_here (s name : string) :
  match_filename s = Some name -> search_filename s = Some name.
Proof. intros H. destruct s; cbn [search_filename]; now rewrite H. Qed.

Lemma search_filename_absent (s : string) :
  Str.contains "filename=" s = false -> search_filename s = None.
Proof.
  induction s as [|c s IH]; rewrite contains_unfold; intros H;
    apply orb_false_iff in H as [Hstart Hrest].
  - reflexivity.
  - cbn [search_filename]. unfold match_filename.
    rewrite (strip_prefix_none _ _ Hstart). exact (IH Hrest).
Qed.

Lemma search_filename_shape (s name : string) :
  search_filename s = Some name ->
  name <> EmptyString /\ free_of quote_char name = true.
Proof.
  induction s as [|c s IH].
  - simpl. discriminate.
  - cbn [search_filename]. destruct (match_filename (String c s)) eqn:Hm.
    + intros H. injection H as <-. unfold match_filename in Hm.
      destruct (strip_prefix "filename=" (String c s)) as [rest|];
        [|discriminate].
      match type of Hm with
      | match until_quote ?r with _ => _ end = _ =>
          pose proof (until_quote_free r) as Hfree;
          destruct (until_quote r) eqn:Hu; [discriminate|]
      end.
      injection Hm as <-. split; [discriminate | exact Hfree].
    + exact IH.
Qed.

(** X9. [_fname] reads back a file name written after [filename=]: when
    the text before has no letter f (as in "attachment; "), a non-empty name
    without double quotes is returned as it is, whether it stands in quotes,
    with anything after, or bare at the end of the header or before a
    quote. *)
Theorem fname_reads_name (p n rest fallback : string) :
  free_of "f" p = true -> n <> EmptyString -> free_of quote_char n = true ->
  _fname (p ++ "filename=" ++ Str.dquote ++ n ++ Str.dquote ++ rest) fallback = n
  /\ _fname (p ++ "filename=" ++ n) fallback = n
  /\ _fname (p ++ "filename=" ++ n ++ Str.dquote ++ rest) fallback = n.
Proof.
  intros Hp Hne Hfree. unfold _fname. rewrite !(search_filename_skip p _ Hp).
  split; [|split].
  - change ("filename=" ++ Str.dquote ++ n ++ Str.dquote ++ rest)%string
      with ("filename=" ++ String quote_char (n ++ String quote_char rest))%string.
    now rewrite (search_filename_here _ n (match_filename_quoted n rest Hne Hfree)).
  - replace ("filename=" ++ n)%string with ("filename=" ++ n ++ "")%string.
    + now rewrite (search_filename_here _ n
                     (match_filename_bare n "" Hne Hfree (or_introl eq_refl))).
    + f_equal. clear. induction n; simpl; congruence.
  - change ("filename=" ++ n ++ Str.dquote ++ rest)%string
      with ("filename=" ++ n ++ String quote_char rest)%string.
    now rewrite (search_filename_here _ n
                   (match_filename_bare n _ Hne Hfree
                      (or_intror (ex_intro _ rest eq_refl)))).
Qed.

(** X10. [_fname] answers the fallback for a header without [filename=],
    in particular for an empty one; and whatever the header, its answer is
    the fallback or a non-empty text without a double quote. *)
Theorem fname_fallback (cd fallback : string) :
  (Str.contains "filename=" cd = false -> _fname cd fallback = fallback)
  /\ _fname EmptyString fallback = fallback
  /\ (_fname cd fallback = fallback
      \/ (_fname cd fallback <> EmptyString
          /\ free_of quote_char (_fname cd fallback) = true)).
Proof.
  unfold _fname. split; [|split].
  - intros H. now rewrite (search_filename_absent cd H).
  - reflexivity.
  - destruct (search_filename cd) as [name|] eqn:Hs; [|now left].
    right. exact (search_filename_shape cd name Hs).
Qed.

Section DocumentRetrieval.

Context {H : DocumentHost}.

(** X11. The result of [print_waybill_doc] has its own shape: the flag is
    [success], and [status] holds a number.  A download gives
    [success: True] with a [document] and no [error]; a failure of the
    transport gives [success: False] with an [error] and no [document], the
    status being the code of the response or 500 for an [HTTPError] and 400
    when there was no response.  Only an exception from outside [requests]
    is let through. *)
Theorem print_waybill_doc_envelope (self : NovaPoshtaAPI) (waybill_ref : string) :
  match print_waybill_doc self waybill_ref with
  | Ok r =>
      (exists code : Z, lookup r "status" = Some (VInt code))
      /\ ((lookup r "success" = Some (VBool true)
           /\ has_key r "document" = true /\ has_key r "error" = false)
          \/ (lookup r "success" = Some (VBool false)
              /\ has_key r "document" = false /\ has_key r "error" = true))
  | Raise e => fetch (document_url self waybill_ref) = FetchOther e
  end
  /\ (forall e : HTTPError,
        fetch (document_url self waybill_ref) = FetchHTTPError e ->
        print_waybill_doc self waybill_ref
        = Ok [("success", VBool false);
              ("status", VInt (match response_status_code e with
                               | Some c => c
                               | None => 500
                               end));
              ("error", VStr (http_error_text e))])
  /\ (forall text : string,
        fetch (document_url self waybill_ref) = FetchRequestException text ->
        print_waybill_doc self waybill_ref
        = Ok [("success", VBool false); ("status", VInt 400);
              ("error", VStr text)]).
Proof.
  unfold print_waybill_doc. split; [|split].
  - destruct (fetch (document_url self waybill_ref)) as [r | e | text | e].
    + split; [eexists; reflexivity | left; repeat split].
    + split; [eexists; reflexivity | right; repeat split].
    + split; [eexists; reflexivity | right; repeat split].
    + reflexivity.
  - intros e He. now rewrite He.
  - intros text He. now rewrite He.
Qed.

(** X12. After a download, [print_waybill_doc] returns the status code of
    the response and a document whose [base64] text decodes to exactly the
    bytes received, whose [type] is the [Content-Type] header, or [None]
    without one, and whose [filename] is [<ref>.pdf] when there is no
    [Content-Disposition] header and the quoted name of that header when it
    has one. *)
Theorem print_waybill_doc_document (self : NovaPoshtaAPI) (waybill_ref : string)
    (r : Response.t) :
  fetch (document_url self waybill_ref) = Fetched r ->
  exists filename b64 : string,
    print_waybill_doc self waybill_ref
    = Ok [("success", VBool true);
          ("status", VInt (Response.status_code r));
          ("document",
           VDict [("filename", VStr filename);
                  ("base64", VStr b64);
                  ("type",
                   match header (Response.headers r) "Content-Type" with
                   | Some v => VStr v
                   | None => VNone
                   end)])]
    /\ Base64.decode b64 = Some (Response.content r)
    /\ (header (Response.headers r) "Content-Disposition" = None ->
        filename = (waybill_ref ++ ".pdf")%string)
    /\ (forall p n rest : string,
          header (Response.headers r) "Content-Disposition"
          = Some (p ++ "filename=" ++ Str.dquote ++ n ++ Str.dquote ++ rest)%string ->
          free_of "f" p = true -> n <> EmptyString ->
          free_of quote_char n = true ->
          filename = n).
Proof.
  intros Hfetch. unfold print_waybill_doc. rewrite Hfetch.
  eexists. eexists. split; [reflexivity|].
  split; [apply base64_decode_encode|].
  split.
  - intros Hcd. now rewrite Hcd.
  - intros p n rest Hcd Hp Hne Hfree. rewrite Hcd.
    unfold _fname. rewrite (search_filename_skip p _ Hp).
    change ("filename=" ++ Str.dquote ++ n ++ Str.dquote ++ rest)%string
      with ("filename=" ++ String quote_char (n ++ String quote_char rest))%string.
    now rewrite (search_filename_here _ n (match_filename_quoted n rest Hne Hfree)).
Qed.

End DocumentRetrieval.

(* ================================================================== *)
(** ** The properties above at concrete inputs *)

(** X1 at a reply that refuses the key. *)
Lemma post_logical_failure_witness :
  exists (msg : string) (code : Z),
    _post (W := Sample.world (fun _ _ => Body (VDict Sample.bad_key)))
      Sample.api "ScanSheet" "getScanSheetList" None []
    = (Ok [("status", VBool false); ("status_code", VInt code);
           ("error", VStr msg); ("raw", VDict Sample.bad_key)],
       [envelope Sample.api "ScanSheet" "getScanSheetList" None])
    /\ msg = "API key is invalid" /\ code = 401.
Proof.
  destruct (post_logical_failure
              (W := Sample.world (fun _ _ => Body (VDict Sample.bad_key)))
              Sample.api "ScanSheet" "getScanSheetList" None []
              Sample.bad_key ["API key is invalid"] []
              eq_refl eq_refl eq_refl (fun _ => eq_refl))
    as (msg & code & Hrun & _ & Hmsg & _ & _ & _ & Hcode).
  exists msg, code. split; [exact Hrun|].
  assert (Em : msg = "API key is invalid") by (apply Hmsg; discriminate).
  split; [exact Em|].
  apply Hcode. subst msg. split; apply contains_spec; reflexivity.
Defined.

(** X2 at a body that carries a [status] of its own. *)
Lemma post_success_fields_witness :
  exists r : dict,
    _post (W := Sample.world
                  (fun _ _ => Body (VDict [("success", VBool true);
                                           ("status", VStr "queued")])))
      Sample.api "InternetDocument" "delete" None []
    = (Ok r, [envelope Sample.api "InternetDocument" "delete" None])
    /\ lookup r "status" = Some (VStr "queued")
    /\ lookup r "status_code" = Some (VInt 200).
Proof.
  destruct (post_success_fields
              (W := Sample.world
                      (fun _ _ => Body (VDict [("success", VBool true);
                                               ("status", VStr "queued")])))
              Sample.api "InternetDocument" "delete" None []
              [("success", VBool true); ("status", VStr "queued")]
              eq_refl eq_refl)
    as (r & Hrun & Hkeep & _ & Hcode & _).
  { repeat constructor; simpl; intuition discriminate. }
  exists r. split; [exact Hrun|].
  split; [apply Hkeep; reflexivity | apply Hcode; reflexivity].
Defined.

(** X3 at a server that is down, at one that refuses the key and at one that
    accepts it. *)
Lemma is_valid_key_verdict_witness :
  fst (is_valid_key (W := Sample.world Sample.unavailable) Sample.api [])
  = Ok false
  /\ fst (is_valid_key
            (W := Sample.world (fun _ _ => Body (VDict Sample.bad_key)))
            Sample.api []) = Ok false
  /\ fst (is_valid_key (W := Sample.world Sample.accepting) Sample.api [])
     = Ok true.
Proof.
  split; [|split].
  - rewrite (proj1 (is_valid_key_verdict (W := Sample.world Sample.unavailable)
                      Sample.api []) _ eq_refl).
    reflexivity.
  - rewrite (proj1 (proj2 (proj2 (is_valid_key_verdict
                (W := Sample.world (fun _ _ => Body (VDict Sample.bad_key)))
                Sample.api [])))
               Sample.bad_key ["API key is invalid"] [] eq_refl eq_refl eq_refl
               (fun _ => eq_refl)).
    reflexivity.
  - rewrite (proj2 (proj2 (proj2 (is_valid_key_verdict
                (W := Sample.world Sample.accepting) Sample.api [])))
               [("success", VBool true); ("data", VList [])]
               eq_refl eq_refl eq_refl eq_refl).
    reflexivity.
Defined.

(** X6 at a branch whose total maximum is 0. *)
Lemma map_wh_max_weight_witness :
  exists (m : dict) (w : Z),
    _map_wh (W := Sample.world Sample.accepting) (VDict Sample.branch12)
    = Ok (VDict m)
    /\ lookup m "max_weight_allowed" = Some (VInt w) /\ w = 30.
Proof.
  destruct (map_wh_max_weight (W := Sample.world Sample.accepting)
              Sample.branch12 30 0 12 eq_refl eq_refl eq_refl)
    as (m & w & Hrun & Hmax & _ & _ & _ & _ & Hplace & _).
  exists m, w. split; [exact Hrun|]. split; [exact Hmax|].
  apply Hplace. reflexivity.
Defined.

(** X7 at a server that is down and at one without counterparties. *)
Lemma get_sender_data_without_senders_witness :
  get_sender_data (W := Sample.world Sample.unreachable) Sample.api []
  = (Ok [("status", VBool false); ("status_code", VInt 400);
         ("error", VStr "Connection refused")],
     [envelope Sample.api "Counterparty" "getCounterparties"
        (Some [("CounterpartyProperty", VStr "Sender"); ("Page", VInt 1)])])
  /\ fst (get_sender_data (W := Sample.world Sample.accepting) Sample.api [])
     = Ok [("status", VBool false); ("status_code", VInt 404);
           ("error", VStr (agents_not_found
                             (W := Sample.world Sample.accepting)
                             PersonProperty.SENDER))].
Proof.
  split.
  - destruct (get_sender_data_without_senders
                (W := Sample.world Sample.unreachable) Sample.api [] _ _ eq_refl)
      as (_ & Hfail & _).
    rewrite (Hfail eq_refl). reflexivity.
  - destruct (get_sender_data_without_senders
                (W := Sample.world Sample.accepting) Sample.api [] _ _ eq_refl)
      as (_ & _ & Hempty).
    rewrite (Hempty eq_refl eq_refl). reflexivity.
Defined.

(** X8 at a reply without data and at one with a tracking record. *)
Lemma waybill_status_result_witness :
  fst (waybill_status (W := Sample.world Sample.accepting) Sample.api
         (Sample.shipment "Sender") [])
  = Ok [("status", VBool true);
        ("status_code", VInt 200);
        ("document", VDict [("ref", VNone);
                            ("ttn", VNone);
                            ("status_code", VInt 0);
                            ("status_description", VNone);
                            ("last_scan_date", VNone);
                            ("last_tracking_date", VNone)])]
  /\ fst (waybill_status
            (W := Sample.world (Sample.listing (VList [VDict Sample.tracked])
                                  (VDict [])))
            Sample.api (Sample.shipment "Sender") [])
     = Ok [("status", VBool true);
           ("status_code", VInt 200);
           ("document", VDict [("ref", VStr "doc-1");
                               ("ttn", VStr "20400000000001");
                               ("status_code", VInt 9);
                               ("status_description", VStr "Received");
                               ("last_scan_date", VStr "2024-03-09 10:00:00");
                               ("last_tracking_date",
                                VStr "2024-03-09 10:05:00")])].
Proof.
  split.
  - destruct (waybill_status_result (W := Sample.world Sample.accepting)
                Sample.api (Sample.shipment "Sender") [] _ _ eq_refl)
      as (_ & Hblank & _).
    rewrite (Hblank eq_refl eq_refl). reflexivity.
  - destruct (waybill_status_result
                (W := Sample.world (Sample.listing
                                      (VList [VDict Sample.tracked]) (VDict [])))
                Sample.api (Sample.shipment "Sender") [] _ _ eq_refl)
      as (_ & _ & Hdoc).
    rewrite (Hdoc Sample.tracked [] 9 eq_refl eq_refl eq_refl). reflexivity.
Defined.

(** X9 at the header of an attachment. *)
Lemma fname_reads_name_witness :
  _fname ("attachment; filename=" ++ Str.dquote ++ "waybill 1.pdf"
          ++ Str.dquote ++ "; size=5") "doc-1.pdf" = "waybill 1.pdf"
  /\ _fname "attachment; filename=waybill.pdf" "doc-1.pdf" = "waybill.pdf".
Proof.
  split.
  - apply (proj1 (fname_reads_name "attachment; " "waybill 1.pdf" "; size=5"
                    "doc-1.pdf" eq_refl ltac:(discriminate) eq_refl)).
  - apply (proj1 (proj2 (fname_reads_name "attachment; " "waybill.pdf" ""
                           "doc-1.pdf" eq_refl ltac:(discriminate) eq_refl))).
Defined.

(** X10 at a header that names no file. *)
Lemma fname_fallback_witness : _fname "inline" "doc-1.pdf" = "doc-1.pdf".
Proof. apply (proj1 (fname_fallback "inline" "doc-1.pdf")). reflexivity. Defined.

(** X12 at a PDF served as an attachment under lower-case header names. *)
Lemma print_waybill_doc_document_witness :
  print_waybill_doc (H := Sample.host (Fetched Sample.pdf)) Sample.api "doc-1"
  = Ok [("success", VBool true);
        ("status", VInt 200);
        ("document", VDict [("filename", VStr "waybill 1.pdf");
                            ("base64", VStr "JVBERi0=");
                            ("type", VStr "application/pdf")])]
  /\ Base64.decode "JVBERi0=" = Some (list_ascii_of_string "%PDF-").
Proof.
  destruct (print_waybill_doc_document (H := Sample.host (Fetched Sample.pdf))
              Sample.api "doc-1" Sample.pdf eq_refl)
    as (filename & b64 & Hrun & Hdecode & _ & Hname).
  assert (Ef : filename = "waybill 1.pdf").
  { apply (Hname "attachment; " "waybill 1.pdf" "");
      [reflexivity | reflexivity | discriminate | reflexivity]. }
  subst filename. rewrite Hrun in *.
  assert (Eb : b64 = "JVBERi0=").
  { unfold print_waybill_doc in Hrun. simpl in Hrun.
    injection Hrun as Hb. symmetry. exact Hb. }
  subst b64. split; [reflexivity | exact Hdecode].
Defined.


(** X15 at a parcel within both maxima and at one above the receiver's. *)
Lemma create_waybill_network_witness :
  (exists props : dict,
     snd (create_waybill (W := Sample.world Sample.accepting) Sample.api
            (Sample.sender "Branch 5" 30) (Sample.receiver "Branch 12" 30)
            "500" Sample.date 2 "NonCash" "Sender" CargoType.CARGO "" 1
            false 0 0 [])
     = [envelope Sample.api "InternetDocument" "save" (Some props)])
  /\ (exists text : string,
        create_waybill (W := Sample.world Sample.accepting) Sample.api
          (Sample.sender "Branch 5" 30) (Sample.receiver "Branch 12" 10)
          "500" Sample.date 20 "NonCash" "Sender" CargoType.CARGO "" 1
          false 0 0 []
        = (Ok [("status", VBool false); ("status_code", VInt 400);
               ("error", VStr text)], [])).
Proof.
  split.
  - destruct (create_waybill_network (W := Sample.world Sample.accepting)
                Sample.api (Sample.sender "Branch 5" 30)
                (Sample.receiver "Branch 12" 30) "500" Sample.date 2 "NonCash"
                "Sender" CargoType.CARGO "" 1 false 0 0 [])
      as (props & _ & Hyes & _).
    exists props. exact (proj2 (Hyes eq_refl)).
  - destruct (create_waybill_network (W := Sample.world Sample.accepting)
                Sample.api (Sample.sender "Branch 5" 30)
                (Sample.receiver "Branch 12" 10) "500" Sample.date 20 "NonCash"
                "Sender" CargoType.CARGO "" 1 false 0 0 [])
      as (props & _ & _ & Hno).
    exact (Hno eq_refl).
Defined.

(** X17 at a reply of two counterparties counted as 0 and at one without a
    count. *)
Lemma find_agents_by_property_result_witness :
  fst (find_agents_by_property
         (W := Sample.world (Sample.listing
                               (VList [VDict Sample.agent1; VDict Sample.agent2])
                               (VDict [("totalCount", VInt 0)])))
         Sample.api PersonProperty.RECIPIENT 1 [])
  = Ok [("status", VBool true);
        ("status_code", VInt 200);
        ("agents", VList [VDict Sample.agent1; VDict Sample.agent2]);
        ("total", VInt 0)]
  /\ fst (find_agents_by_property
            (W := Sample.world (Sample.listing
                                  (VList [VDict Sample.agent1; VDict Sample.agent2])
                                  (VDict [])))
            Sample.api PersonProperty.RECIPIENT 1 [])
     = Ok [("status", VBool true);
           ("status_code", VInt 200);
           ("agents", VList [VDict Sample.agent1; VDict Sample.agent2]);
           ("total", VInt 2)].
Proof.
  split.
  - destruct (find_agents_by_property_result
                (W := Sample.world (Sample.listing
                        (VList [VDict Sample.agent1; VDict Sample.agent2])
                        (VDict [("totalCount", VInt 0)])))
                Sample.api PersonProperty.RECIPIENT 1 [] _ _
                (VDict Sample.agent1) [VDict Sample.agent2]
                [("totalCount", VInt 0)] eq_refl eq_refl eq_refl eq_refl)
      as (total & Hrun & Hcount & _).
    rewrite Hrun, (Hcount (VInt 0) eq_refl). reflexivity.
  - destruct (find_agents_by_property_result
                (W := Sample.world (Sample.listing
                        (VList [VDict Sample.agent1; VDict Sample.agent2])
                        (VDict [])))
                Sample.api PersonProperty.RECIPIENT 1 [] _ _
                (VDict Sample.agent1) [VDict Sample.agent2]
                [] eq_refl eq_refl eq_refl eq_refl)
      as (total & Hrun & _ & Hlen).
    rewrite Hrun, (Hlen eq_refl). reflexivity.
Defined.

(** X18 at two maxima of 30. *)
Lemma create_waybill_nan_weight_witness :
  exists props : dict,
    snd (create_waybill (W := Sample.world Sample.accepting) Sample.api
           (Sample.sender "Branch 5" 30) (Sample.receiver "Branch 12" 30)
           "500" Sample.date PrimFloat.nan "NonCash" "Sender" CargoType.CARGO
           "" 1 false 0 0 [])
    = [envelope Sample.api "InternetDocument" "save" (Some props)].
Proof.
  exact (create_waybill_nan_weight (W := Sample.world Sample.accepting)
           Sample.api (Sample.sender "Branch 5" 30)
           (Sample.receiver "Branch 12" 30) "500" Sample.date "NonCash"
           "Sender" CargoType.CARGO "" 1 false 0 0 [] eq_refl eq_refl).
Defined.


(* ================================================================== *)
(** ** Updates and page counts *)

Section Updates.

Context {W : World}.

(** X19. [update_waybill] has no local checks: whatever the maxima and the
    weight of the shipment, also where [create_waybill] refuses without a
    request, it builds its property map without an error and issues exactly
    one request, the update of the document named by [Ref], and returns what
    [_post] returns. *)
Theorem update_waybill_unchecked (self : NovaPoshtaAPI)
    (nova_poshta : NovaPoshta.t) (goods_count : Z) (t : trace) :
  exists props : dict,
    update_waybill_props nova_poshta goods_count = Ok props
    /\ update_waybill self nova_poshta goods_count t
       = _post self "InternetDocument" "update" (Some props) t
    /\ snd (update_waybill self nova_poshta goods_count t)
       = (t ++ [envelope self "InternetDocument" "update" (Some props)])%list
    /\ lookup props "Ref"
       = Some (VStr (NovaPoshta.delivery_identifier nova_poshta))
    /\ lookup props "Weight"
       = Some (VStr (str_float (NovaPoshta.specified_weight nova_poshta)))
    /\ lookup props "SeatsAmount" = Some (VInt goods_count)
    /\ (weights_accepted (NovaPoshta.sender nova_poshta)
          (NovaPoshta.receiver nova_poshta)
          (NovaPoshta.specified_weight nova_poshta) = false ->
        forall (declared_price : string) (payment_method : string)
               (cargo_type : CargoType.t) (comment : string),
          snd (create_waybill self (NovaPoshta.sender nova_poshta)
                 (NovaPoshta.receiver nova_poshta) declared_price
                 (NovaPoshta.delivery_date nova_poshta)
                 (NovaPoshta.specified_weight nova_poshta) payment_method
                 (DeliveryInfo.payer (NovaPoshta.delivery nova_poshta))
                 cargo_type comment goods_count
                 (NovaPoshta.with_backward_delivery nova_poshta)
                 (NovaPoshta.backward_amount nova_poshta)
                 (NovaPoshta.postpaid_amount nova_poshta) t) = t).
Proof.
  assert (Hp : exists props : dict,
             update_waybill_props nova_poshta goods_count = Ok props
             /\ lookup props "Ref"
                = Some (VStr (NovaPoshta.delivery_identifier nova_poshta))
             /\ lookup props "Weight"
                = Some (VStr (str_float (NovaPoshta.specified_weight nova_poshta)))
             /\ lookup props "SeatsAmount" = Some (VInt goods_count)).
  { unfold update_waybill_props, set_additional_parameters.
    destruct (Str.contains (WarehouseType.value WarehouseType.POST_MACHINE)
                (NovaPoshtaSender.address (NovaPoshta.sender nova_poshta))
              || Str.contains (WarehouseType.value WarehouseType.POST_MACHINE)
                   (NovaPoshtaReceiver.address (NovaPoshta.receiver nova_poshta)));
      eexists; (split; [reflexivity|]); repeat split. }
  destruct Hp as (props & Hprops & Href & Hweight & Hseats).
  exists props. split; [exact Hprops|].
  assert (Hrun : update_waybill self nova_poshta goods_count t
                 = _post self "InternetDocument" "update" (Some props) t).
  { unfold update_waybill, bind, lift. now rewrite Hprops. }
  split; [exact Hrun|]. split.
  { rewrite Hrun. apply post_trace. }
  do 3 (split; [assumption|]).
  intros Hw declared_price payment_method cargo_type comment.
  unfold weights_accepted in Hw. unfold create_waybill, float_is_zero.
  destruct (PrimFloat.eqb
              (NovaPoshtaSender.max_weight_allowed (NovaPoshta.sender nova_poshta))
              PrimFloat.zero);
    destruct (PrimFloat.eqb
                (NovaPoshtaReceiver.max_weight_allowed
                   (NovaPoshta.receiver nova_poshta)) PrimFloat.zero);
    destruct (PrimFloat.ltb
                (NovaPoshtaSender.max_weight_allowed (NovaPoshta.sender nova_poshta))
                (NovaPoshta.specified_weight nova_poshta));
    destruct (PrimFloat.ltb
                (NovaPoshtaReceiver.max_weight_allowed
                   (NovaPoshta.receiver nova_poshta))
                (NovaPoshta.specified_weight nova_poshta));
    cbn [negb andb orb] in *; try reflexivity; discriminate Hw.
Qed.

End Updates.


(** X19 at a shipment of 50 between parties that allow 30. *)
Lemma update_waybill_unchecked_witness :
  (exists props : dict,
     snd (update_waybill (W := Sample.world Sample.accepting) Sample.api
            Sample.overweight 1 [])
     = [envelope Sample.api "InternetDocument" "update" (Some props)]
     /\ lookup props "Ref" = Some (VStr "doc-2"))
  /\ snd (create_waybill (W := Sample.world Sample.accepting) Sample.api
            (Sample.sender "Branch 5" 30) (Sample.receiver "Branch 12" 30)
            "500" Sample.date 50 "NonCash" "Sender" CargoType.CARGO "" 1
            false 0 0 []) = [].
Proof.
  destruct (update_waybill_unchecked (W := Sample.world Sample.accepting)
              Sample.api Sample.overweight 1 [])
    as (props & _ & _ & Htrace & Href & _ & _ & Hcreate).
  split.
  - exists props. split; [exact Htrace | exact Href].
  - exact (Hcreate eq_refl "500" "NonCash" CargoType.CARGO "").
Defined.

